(** * pyowm: the SO2 index and the UV index value objects

    A shallow embedding of [pyowm/pollutionapi30/so2index.py] and
    [pyowm/uvindexapi30/uvindex.py].  Python values are a small tagged
    union, exceptions are an error type threaded through a result monad,
    and floats are IEEE 754 binary64 numbers in the Standard Library's
    [spec_float] representation. *)

From Stdlib Require Import ZArith List String Ascii Bool Lia.
From Stdlib Require Import Floats.SpecFloat Floats.PrimFloat Floats.FloatOps.
Import ListNotations.

#[local] Set Warnings "-register-all".

Local Open Scope string_scope.
Local Open Scope Z_scope.

(** ** Python values, exceptions and the operations the two files use *)

Module Py.

(** The values that reach the two classes: what a decoded JSON document
    holds, plus tuples.  Dictionaries keep insertion order and have string
    keys; a string is held as the bytes of its UTF-8 encoding. *)
Inductive pyval : Type :=
| VNone
| VBool (b : bool)
| VInt (z : Z)
| VFloat (f : spec_float)
| VStr (s : string)
| VList (l : list pyval)
| VTuple (l : list pyval)
| VDict (d : list (string * pyval)).

(** The exceptions in play.  [ParseResponseError] carries the exception
    that was being handled when it was raised (Python's [__context__]). *)
Inductive exn : Type :=
| ValueError (msg : string)
| TypeError
| AttributeError
| OverflowError
| KeyError (key : string)
| ParseResponseError (msg : string) (context : option exn).

Inductive result (A : Type) : Type :=
| Ok (a : A)
| Raise (e : exn).
Arguments Ok {A} a.
Arguments Raise {A} e.

Definition bind {A B : Type} (m : result A) (k : A -> result B) : result B :=
  match m with
  | Ok a => k a
  | Raise e => Raise e
  end.

(** [try: body except KeyError: raise mk()]: only a [KeyError] is caught,
    and the exception raised by the handler records it as its context. *)
Definition except_KeyError {A : Type} (body : result A)
           (handler : exn -> exn) : result A :=
  match body with
  | Raise (KeyError k) => Raise (handler (KeyError k))
  | r => r
  end.

(** *** Numbers and comparisons *)

(** A float is a binary64 number when it is canonical for the format's
    precision (53) and largest exponent (1024). *)
Definition is_binary64 (f : spec_float) : bool :=
  SpecFloat.valid_binary prec emax f.

Inductive num : Type :=
| NInt (z : Z)
| NFloat (f : spec_float).

(** [bool] is a subclass of [int]. *)
Definition as_num (v : pyval) : option num :=
  match v with
  | VBool b => Some (NInt (Z.b2z b))
  | VInt z => Some (NInt z)
  | VFloat f => Some (NFloat f)
  | _ => None
  end.

(** An int against a float is compared exactly, as CPython does. *)
Definition Z_SF_compare (a : Z) (f : spec_float) : option comparison :=
  match f with
  | S754_nan => None
  | S754_infinity s => Some (if s then Gt else Lt)
  | S754_zero _ => Some (a ?= 0)
  | S754_finite s m e =>
      let v := if s then Zneg m else Zpos m in
      Some match e with
           | Zneg p => (a * 2 ^ Zpos p ?= v)
           | _ => (a ?= v * 2 ^ e)
           end
  end.

Definition num_compare (a b : num) : option comparison :=
  match a, b with
  | NInt x, NInt y => Some (x ?= y)
  | NFloat x, NFloat y => SFcompare x y
  | NInt x, NFloat y => Z_SF_compare x y
  | NFloat x, NInt y => option_map CompOpp (Z_SF_compare y x)
  end.

Definition num_ltb (a b : num) : bool :=
  match num_compare a b with Some Lt => true | _ => false end.

Definition num_leb (a b : num) : bool :=
  match num_compare a b with Some (Lt | Eq) => true | _ => false end.

(** [v < c] and [c <= v] for a numeric literal [c]: a value that is not a
    number cannot be ordered against one. *)
Definition lt_lit (v : pyval) (c : num) : result bool :=
  match as_num v with
  | Some x => Ok (num_ltb x c)
  | None => Raise TypeError
  end.

Definition le_lit (c : num) (v : pyval) : result bool :=
  match as_num v with
  | Some x => Ok (num_leb c x)
  | None => Raise TypeError
  end.

(** [a < b] between an int and the value [b]. *)
Definition int_lt (a : Z) (b : pyval) : result bool :=
  match as_num b with
  | Some y => Ok (num_ltb (NInt a) y)
  | None => Raise TypeError
  end.

(** *** Subscripting and [isinstance] *)

Fixpoint assoc (k : string) (d : list (string * pyval)) : option pyval :=
  match d with
  | [] => None
  | (k', v) :: d' => if String.eqb k k' then Some v else assoc k d'
  end.

(** [v[k]] for a string key [k]. *)
Definition getitem (v : pyval) (k : string) : result pyval :=
  match v with
  | VDict d =>
      match assoc k d with
      | Some x => Ok x
      | None => Raise (KeyError k)
      end
  | _ => Raise TypeError
  end.

Definition isinstance_list (v : pyval) : bool :=
  match v with
  | VList _ => true
  | _ => false
  end.

(** The sequence types among the values (lists, tuples and strings). *)
Definition is_sequence (v : pyval) : bool :=
  match v with
  | VList _ | VTuple _ | VStr _ => true
  | _ => false
  end.

(** *** [str.replace] *)

Fixpoint replace_from (old new : string) (skip : nat) (s : string) : string :=
  match s with
  | EmptyString => EmptyString
  | String c s' =>
      match skip with
      | S k => replace_from old new k s'
      | O =>
          if String.prefix old s
          then new ++ replace_from old new (Nat.pred (String.length old)) s'
          else String c (replace_from old new 0 s')
      end
  end.

(** [s.replace(old, new)] for a pattern [old] that is not empty. *)
Definition str_replace (old new s : string) : string :=
  replace_from old new 0 s.

(** [v.replace(old, new)]: only strings have the method. *)
Definition replace (v : pyval) (old new : string) : result string :=
  match v with
  | VStr s => Ok (str_replace old new s)
  | _ => Raise AttributeError
  end.

(** *** The [float] builtin *)

(** A string is held as the bytes of its UTF-8 encoding.  [float] first
    brings a string down to ASCII: a character past ASCII becomes a space
    when it is white space, its digit when it is a decimal digit, and [?]
    otherwise; then it drops the ASCII white space around the numeral. *)

Definition is_space (c : ascii) : bool :=
  let n := nat_of_ascii c in
  (((9 <=? n) && (n <=? 13)) || (n =? 32))%nat.

(** The white space past ASCII. *)
Definition unicode_space (cp : N) : bool :=
  (existsb (N.eqb cp) [133; 160; 5760; 8232; 8233; 8239; 8287; 12288]
   || ((8192 <=? cp) && (cp <=? 8202)))%N.

(** The code points past ASCII of the digit zero of each script, as of
    Unicode 14.0 (CPython 3.11); the other nine digits follow each. *)
Definition decimal_zeros : list N :=
  [1632; 1776; 1984; 2406; 2534; 2662; 2790; 2918; 3046; 3174; 3302; 3430;
   3558; 3664; 3792; 3872; 4160; 4240; 6112; 6160; 6470; 6608; 6784; 6800;
   6992; 7088; 7232; 7248; 42528; 43216; 43264; 43472; 43504; 43600; 44016;
   65296; 66720; 68912; 69734; 69872; 69942; 70096; 70384; 70736; 70864;
   71248; 71360; 71472; 71904; 72016; 72784; 73040; 73120; 92768; 92864;
   93008; 120782; 120792; 120802; 120812; 120822; 123200; 123632; 125264;
   130032]%N.

Definition unicode_decimal (cp : N) : option N :=
  match find (fun z => (z <=? cp) && (cp <? z + 10))%N decimal_zeros with
  | Some z => Some (cp - z)%N
  | None => None
  end.

Definition ascii_of_code_point (cp : N) : ascii :=
  if unicode_space cp then " "%char
  else match unicode_decimal cp with
       | Some d => ascii_of_N (48 + d)
       | None => "?"%char
       end.

(** The payload of a continuation byte of UTF-8. *)
Definition continuation (b : ascii) : option N :=
  let n := N_of_ascii b in
  if ((128 <=? n) && (n <? 192))%N then Some (n - 128)%N else None.

(** The ASCII image of a string, character by character; bytes that are
    not the UTF-8 encoding of a character become [?]. *)
Fixpoint to_ascii (l : list ascii) : list ascii :=
  match l with
  | [] => []
  | b :: r =>
      let n := N_of_ascii b in
      if (n <? 128)%N then b :: to_ascii r
      else if (n <? 192)%N then "?"%char :: to_ascii r
      else if (n <? 224)%N then
        match r with
        | b1 :: r1 =>
            match continuation b1 with
            | Some c1 =>
                ascii_of_code_point ((n - 192) * 64 + c1)%N :: to_ascii r1
            | None => "?"%char :: to_ascii r
            end
        | [] => ["?"%char]
        end
      else if (n <? 240)%N then
        match r with
        | b1 :: b2 :: r2 =>
            match continuation b1, continuation b2 with
            | Some c1, Some c2 =>
                ascii_of_code_point (((n - 224) * 64 + c1) * 64 + c2)%N
                :: to_ascii r2
            | _, _ => "?"%char :: to_ascii r
            end
        | _ => ["?"%char]
        end
      else
        match r with
        | b1 :: b2 :: b3 :: r3 =>
            match continuation b1, continuation b2, continuation b3 with
            | Some c1, Some c2, Some c3 =>
                ascii_of_code_point
                  ((((n - 240) * 64 + c1) * 64 + c2) * 64 + c3)%N
                :: to_ascii r3
            | _, _, _ => "?"%char :: to_ascii r
            end
        | _ => ["?"%char]
        end
  end.

Definition is_digit (c : ascii) : bool :=
  let n := nat_of_ascii c in ((48 <=? n) && (n <=? 57))%nat.

Definition digit_val (c : ascii) : Z := Z.of_nat (nat_of_ascii c) - 48.

Definition lower (c : ascii) : ascii :=
  let n := nat_of_ascii c in
  if ((65 <=? n) && (n <=? 90))%nat then ascii_of_nat (n + 32) else c.

Fixpoint lstrip (l : list ascii) : list ascii :=
  match l with
  | c :: l' => if is_space c then lstrip l' else l
  | [] => []
  end.

Definition strip (l : list ascii) : list ascii :=
  rev (lstrip (rev (lstrip l))).

(** An underscore may only stand between two digits; the accepted ones are
    dropped before the number is read. *)
Fixpoint drop_underscores (prev : option ascii) (l : list ascii)
  : option (list ascii) :=
  match l with
  | [] =>
      match prev with
      | Some p => if Ascii.eqb p "_" then None else Some []
      | None => Some []
      end
  | c :: l' =>
      let prev_digit := match prev with Some p => is_digit p | None => false end in
      let prev_under := match prev with Some p => Ascii.eqb p "_" | None => false end in
      if Ascii.eqb c "_" then
        if prev_digit then drop_underscores (Some c) l' else None
      else if prev_under && negb (is_digit c) then None
      else option_map (cons c) (drop_underscores (Some c) l')
  end.

Fixpoint span_digits (l : list ascii) : list ascii * list ascii :=
  match l with
  | c :: l' =>
      if is_digit c
      then let (d, r) := span_digits l' in (c :: d, r)
      else ([], l)
  | [] => ([], [])
  end.

Definition digits_val (d : list ascii) : Z :=
  fold_left (fun acc c => 10 * acc + digit_val c) d 0.

(** The binary64 number nearest to [n * 10 ^ e] (ties to even), with the
    sign [neg]. *)
Definition decimal_to_float (neg : bool) (n e : Z) : spec_float :=
  match n with
  | Zpos p =>
      match e with
      | Zneg k =>
          SFdiv prec emax (S754_finite neg p 0)
                (S754_finite false (Pos.pow 10 k) 0)
      | _ =>
          binary_normalize prec emax
            ((if neg then Zneg p else Zpos p) * 10 ^ e) 0 false
      end
  | _ => S754_zero neg
  end.

Definition parse_exponent (l : list ascii) : option Z :=
  match l with
  | [] => Some 0
  | c :: r =>
      if Ascii.eqb (lower c) "e" then
        let '(eneg, r') :=
          match r with
          | "-"%char :: r' => (true, r')
          | "+"%char :: r' => (false, r')
          | _ => (false, r)
          end in
        let (ed, rest) := span_digits r' in
        match ed, rest with
        | _ :: _, [] => Some (if eneg then - digits_val ed else digits_val ed)
        | _, _ => None
        end
      else None
  end.

Definition parse_decimal (neg : bool) (l : list ascii) : option spec_float :=
  let (ip, r1) := span_digits l in
  let (fp, r2) :=
    match r1 with
    | "."%char :: r => span_digits r
    | _ => ([], r1)
    end in
  match (ip ++ fp)%list with
  | [] => None
  | ds =>
      match parse_exponent r2 with
      | Some e =>
          Some (decimal_to_float neg (digits_val ds)
                                 (e - Z.of_nat (List.length fp)))
      | None => None
      end
  end.

Definition parse_signed (l : list ascii) : option spec_float :=
  let '(neg, body) :=
    match l with
    | "-"%char :: r => (true, r)
    | "+"%char :: r => (false, r)
    | _ => (false, l)
    end in
  let word := string_of_list_ascii (map lower body) in
  if String.eqb word "inf" || String.eqb word "infinity"
  then Some (S754_infinity neg)
  else if String.eqb word "nan" then Some S754_nan
  else parse_decimal neg body.

(** [float(s)] for a string: the string is brought down to ASCII, the white
    space around it is dropped, and what is left is a sign, then [inf],
    [infinity], [nan] or a decimal numeral with an optional exponent. *)
Definition float_of_string (s : string) : option spec_float :=
  match drop_underscores None (strip (to_ascii (list_ascii_of_string s))) with
  | Some l => parse_signed l
  | None => None
  end.

(** [float(n)] for an int: the nearest binary64 number, and an error past
    the largest one. *)
Definition float_of_int (z : Z) : result spec_float :=
  match binary_normalize prec emax z 0 false with
  | S754_infinity _ => Raise OverflowError
  | f => Ok f
  end.

Definition float (v : pyval) : result spec_float :=
  match v with
  | VFloat f => Ok f
  | VInt z => float_of_int z
  | VBool b => float_of_int (Z.b2z b)
  | VStr s =>
      match float_of_string s with
      | Some f => Ok f
      | None => Raise (ValueError "could not convert string to float")
      end
  | _ => Raise TypeError
  end.

End Py.

Import Py.

Notation "x <- m ;; k" := (bind m (fun x => k))
  (at level 61, m at next level, right associativity).

(** ** The float literals of the source *)

Definition f0_0 : spec_float := S754_zero false.
Definition f2_9 : spec_float := S754_finite false 6530219459687219 (-51).
Definition f5_9 : spec_float := S754_finite false 6642809450371482 (-50).
Definition f7_9 : spec_float := S754_finite false 8894609264056730 (-50).
Definition f10_9 : spec_float := S754_finite false 6136154492292301 (-49).

(** ** Collaborators that live outside the two files *)

(** Modelled from the spec: the class [pyowm.weatherapi25.location.Location]
    is not among the sources.  The spec describes it as an immutable
    (name?, longitude, latitude, country?) tuple, built here with the name
    and the country unset. *)
Record Location : Type := mkLocation {
  loc_name : option string;
  loc_lon : spec_float;
  loc_lat : spec_float;
  loc_country : option string
}.

(** A reference time formatter, on which the parsers and accessors are run
    on concrete payloads. *)
Module RefTime.

(** Days between 1970-01-01 and a date of the proleptic Gregorian
    calendar, and back. *)
Definition days_from_civil (y m d : Z) : Z :=
  let y' := if m <=? 2 then y - 1 else y in
  let era := y' / 400 in
  let yoe := y' - era * 400 in
  let doy := (153 * (if 2 <? m then m - 3 else m + 9) + 2) / 5 + d - 1 in
  let doe := yoe * 365 + yoe / 4 - yoe / 100 + doy in
  era * 146097 + doe - 719468.

Definition civil_from_days (z : Z) : Z * Z * Z :=
  let z' := z + 719468 in
  let era := z' / 146097 in
  let doe := z' - era * 146097 in
  let yoe := (doe - doe / 1460 + doe / 36524 - doe / 146096) / 365 in
  let doy := doe - (365 * yoe + yoe / 4 - yoe / 100) in
  let mp := (5 * doy + 2) / 153 in
  let d := doy - (153 * mp + 2) / 5 + 1 in
  let m := if mp <? 10 then mp + 3 else mp - 9 in
  let y := yoe + era * 400 in
  ((if m <=? 2 then y + 1 else y), m, d).

Definition is_leap (y : Z) : bool :=
  ((y mod 4 =? 0) && negb (y mod 100 =? 0)) || (y mod 400 =? 0).

Definition days_in_month (y m : Z) : Z :=
  if m =? 2 then (if is_leap y then 29 else 28)
  else if (m =? 4) || (m =? 6) || (m =? 9) || (m =? 11) then 30
  else 31.

(** Reads exactly [n] decimal digits. *)
Fixpoint take_digits (n : nat) (acc : Z) (l : list ascii)
  : option (Z * list ascii) :=
  match n with
  | O => Some (acc, l)
  | S n' =>
      match l with
      | c :: l' =>
          if is_digit c
          then take_digits n' (10 * acc + digit_val c) l'
          else None
      | [] => None
      end
  end.

Definition expect (c : ascii) (l : list ascii) : option (list ascii) :=
  match l with
  | c' :: l' => if Ascii.eqb c c' then Some l' else None
  | [] => None
  end.

Definition obind {A B : Type} (o : option A) (k : A -> option B) : option B :=
  match o with
  | Some a => k a
  | None => None
  end.

Definition parse_iso (l : list ascii) : option Z :=
  obind (take_digits 4 0 l) (fun '(y, l) =>
  obind (expect "-" l) (fun l =>
  obind (take_digits 2 0 l) (fun '(mo, l) =>
  obind (expect "-" l) (fun l =>
  obind (take_digits 2 0 l) (fun '(d, l) =>
  obind (expect " " l) (fun l =>
  obind (take_digits 2 0 l) (fun '(h, l) =>
  obind (expect ":" l) (fun l =>
  obind (take_digits 2 0 l) (fun '(mi, l) =>
  obind (expect ":" l) (fun l =>
  obind (take_digits 2 0 l) (fun '(sec, l) =>
  obind (expect "+" l) (fun l =>
  obind (expect "0" l) (fun l =>
  obind (expect "0" l) (fun l =>
    match l with
    | [] =>
        if (1 <=? y) && (1 <=? mo) && (mo <=? 12) && (1 <=? d)
           && (d <=? days_in_month y mo) && (h <=? 23) && (mi <=? 59)
           && (sec <=? 59)
        then Some (days_from_civil y mo d * 86400 + h * 3600 + mi * 60 + sec)
        else None
    | _ => None
    end)))))))))))))).

(** Modelled from the spec: [pyowm.utils.formatting.ISO8601_to_UNIXtime]
    is not among the sources.  The spec gives the format of the string,
    [YYYY-MM-DD HH:MM:SS+00], and says that it is parsed to a UNIX
    integer; a string of another shape is an invalid argument. *)
Definition ISO8601_to_UNIXtime (s : string) : result Z :=
  match parse_iso (list_ascii_of_string s) with
  | Some z => Ok z
  | None => Raise (ValueError "bad format for input ISO8601 string")
  end.

Fixpoint pad_digits (n : nat) (z : Z) (acc : list ascii) : list ascii :=
  match n with
  | O => acc
  | S n' =>
      pad_digits n' (z / 10)
                 (ascii_of_nat (Z.to_nat (z mod 10) + 48) :: acc)
  end.

Definition to_ISO8601 (z : Z) : string :=
  let '(y, mo, d) := civil_from_days (z / 86400) in
  let r := z mod 86400 in
  string_of_list_ascii
    (pad_digits 4 y ("-"%char :: pad_digits 2 mo ("-"%char :: pad_digits 2 d
      (" "%char :: pad_digits 2 (r / 3600) (":"%char ::
       pad_digits 2 (r mod 3600 / 60) (":"%char ::
       pad_digits 2 (r mod 60) ["+"%char; "0"%char; "0"%char])))))).

(** The structured date value of a time: year, month, day, hour, minute
    and second. *)
Definition to_date (z : Z) : pyval :=
  let '(y, mo, d) := civil_from_days (z / 86400) in
  let r := z mod 86400 in
  VTuple [VInt y; VInt mo; VInt d;
          VInt (r / 3600); VInt (r mod 3600 / 60); VInt (r mod 60)].

(** Modelled from the spec: [pyowm.utils.formatting.timeformat] is not
    among the sources.  The spec gives three modes, [unix] (the integer
    itself), [iso] (the string [YYYY-MM-DD HH:MM:SS+00]) and [date] (a
    structured date value), and an invalid-argument failure when the
    stored time is negative.  Python's dates stop at the year 9999. *)
Definition timeformat (timeobject : pyval) (mode : string) : result pyval :=
  match timeobject with
  | VInt z =>
      if z <? 0 then Raise (ValueError "The time value is a negative number")
      else if String.eqb mode "unix" then Ok (VInt z)
      else if 253402300800 <=? z then Raise (ValueError "year is out of range")
      else if String.eqb mode "iso" then Ok (VStr (to_ISO8601 z))
      else if String.eqb mode "date" then Ok (to_date z)
      else Raise (ValueError "Invalid value for timeformat parameter")
  | _ => Raise TypeError
  end.

End RefTime.

(** ** [pyowm/uvindexapi30/uvindex.py] *)

(** The chained comparison [lo <= x < hi]: the second test runs only when
    the first holds. *)
Definition between (lo : spec_float) (x : pyval) (hi : spec_float) : result bool :=
  b <- le_lit (NFloat lo) x ;;
  if b then lt_lit x (NFloat hi) else Ok false.

Definition uv_intensity_to_exposure_risk (uv_intensity : pyval) : result string :=
  b1 <- between f0_0 uv_intensity f2_9 ;;
  if b1 then Ok "low" else
  b2 <- between f2_9 uv_intensity f5_9 ;;
  if b2 then Ok "moderate" else
  b3 <- between f5_9 uv_intensity f7_9 ;;
  if b3 then Ok "high" else
  b4 <- between f7_9 uv_intensity f10_9 ;;
  if b4 then Ok "very high" else
  Ok "extreme".

(** The classifier applied to a float written as a decimal numeral. *)
Definition risk_of_literal (numeral : string) : result string :=
  x <- float (VStr numeral) ;;
  uv_intensity_to_exposure_risk (VFloat x).

Module UVIndex.

Record t : Type := mk {
  _reference_time : pyval;
  _location : Location;
  _value : pyval;
  _reception_time : pyval
}.

Definition __init__ (reference_time : pyval) (location : Location)
           (value reception_time : pyval) : result t :=
  neg_ref <- lt_lit reference_time (NInt 0) ;;
  if neg_ref then Raise (ValueError "'referencetime' must be greater than 0") else
  neg_val <- lt_lit value (NFloat f0_0) ;;
  if neg_val then Raise (ValueError "'UV intensity must be greater than 0") else
  neg_rec <- lt_lit reception_time (NInt 0) ;;
  if neg_rec then Raise (ValueError "'reception_time' must be greater than 0") else
  Ok (mk reference_time location value reception_time).

Definition get_location (self : t) : Location := _location self.
Definition get_value (self : t) : pyval := _value self.

Definition get_exposure_risk (self : t) : result string :=
  uv_intensity_to_exposure_risk (_value self).

Definition __name__ : string := "pyowm.uvindexapi30.uvindex".

Section Collaborators.
(** [formatting.timeformat], [timestamps.now('unix')] (the reading of
    the clock, passed as [now]) and [Location.to_dict]. *)
Variable timeformat : pyval -> string -> result pyval.
Variable Location_to_dict : Location -> pyval.

Definition get_reference_time (self : t) (timeformat_ : string) : result pyval :=
  timeformat (_reference_time self) timeformat_.

Definition get_reception_time (self : t) (timeformat_ : string) : result pyval :=
  timeformat (_reception_time self) timeformat_.

Definition from_dict (now : Z) (the_dict : pyval) : result t :=
  match the_dict with
  | VNone => Raise (ParseResponseError "Data is None" None)
  | _ =>
      parsed <-
        except_KeyError
          (reference_time <- getitem the_dict "date" ;;
           let reception_time := VInt now in
           lon_v <- getitem the_dict "lon" ;;
           lon <- float lon_v ;;
           lat_v <- getitem the_dict "lat" ;;
           lat <- float lat_v ;;
           let place := mkLocation None lon lat None in
           value_v <- getitem the_dict "value" ;;
           uv_intensity <- float value_v ;;
           Ok (reference_time, place, uv_intensity, reception_time))
          (fun e => ParseResponseError
                      (__name__ ++ ": impossible to parse UV Index") (Some e)) ;;
      let '(reference_time, place, uv_intensity, reception_time) := parsed in
      __init__ reference_time place (VFloat uv_intensity) reception_time
  end.

Definition to_dict (self : t) : pyval :=
  VDict [("reference_time", _reference_time self);
         ("location", Location_to_dict (_location self));
         ("value", _value self);
         ("reception_time", _reception_time self)].
End Collaborators.

End UVIndex.

(** ** [pyowm/pollutionapi30/so2index.py] *)

Module SO2Index.

Record t : Type := mk {
  _reference_time : pyval;
  _location : Location;
  _interval : pyval;
  _so2_samples : pyval;
  _reception_time : pyval
}.

Definition __init__ (reference_time : pyval) (location : Location)
           (interval so2_samples reception_time : pyval) : result t :=
  neg_ref <- lt_lit reference_time (NInt 0) ;;
  if neg_ref then Raise (ValueError "'reference_time' must be greater than 0") else
  if negb (isinstance_list so2_samples)
  then Raise (ValueError "'so2_samples' must be a list") else
  neg_rec <- lt_lit reception_time (NInt 0) ;;
  if neg_rec then Raise (ValueError "'reception_time' must be greater than 0") else
  Ok (mk reference_time location interval so2_samples reception_time).

Definition get_location (self : t) : Location := _location self.
Definition get_interval (self : t) : pyval := _interval self.
Definition get_so2_samples (self : t) : pyval := _so2_samples self.

Definition __name__ : string := "pyowm.pollutionapi30.so2index".

Section Collaborators.
(** [formatting.timeformat], [formatting.ISO8601_to_UNIXtime],
    [timestamps.now('unix')] (the reading of the clock, passed as
    [now]) and [Location.to_dict]. *)
Variable timeformat : pyval -> string -> result pyval.
Variable ISO8601_to_UNIXtime : string -> result Z.
Variable Location_to_dict : Location -> pyval.

Definition get_reference_time (self : t) (timeformat_ : string) : result pyval :=
  timeformat (_reference_time self) timeformat_.

Definition get_reception_time (self : t) (timeformat_ : string) : result pyval :=
  timeformat (_reception_time self) timeformat_.

Definition is_forecast (now : Z) (self : t) : result bool :=
  reference <- get_reference_time self "unix" ;;
  int_lt now reference.

Definition from_dict (now : Z) (the_dict : pyval) : result t :=
  match the_dict with
  | VNone => Raise (ParseResponseError "Data is None" None)
  | _ =>
      parsed <-
        except_KeyError
          (time_v <- getitem the_dict "time" ;;
           t1 <- replace time_v "Z" "+00" ;;
           let t := str_replace "T" " " t1 in
           reference_time <- ISO8601_to_UNIXtime t ;;
           let reception_time := VInt now in
           loc1 <- getitem the_dict "location" ;;
           lon_v <- getitem loc1 "longitude" ;;
           lon <- float lon_v ;;
           loc2 <- getitem the_dict "location" ;;
           lat_v <- getitem loc2 "latitude" ;;
           lat <- float lat_v ;;
           let place := mkLocation None lon lat None in
           so2_samples <- getitem the_dict "data" ;;
           Ok (VInt reference_time, place, so2_samples, reception_time))
          (fun e => ParseResponseError
                      (__name__ ++ ": impossible to parse COIndex") (Some e)) ;;
      let '(reference_time, place, so2_samples, reception_time) := parsed in
      __init__ reference_time place VNone so2_samples reception_time
  end.

Definition to_dict (self : t) : pyval :=
  VDict [("reference_time", _reference_time self);
         ("location", Location_to_dict (_location self));
         ("interval", _interval self);
         ("so2_samples", _so2_samples self);
         ("reception_time", _reception_time self)].
End Collaborators.

End SO2Index.

(** ** Auxiliary predicates and sample data *)

(** What [x < c] and [c <= x] say about [x] for a positive finite [c]:
    finite positive floats are ordered by exponent, then by mantissa. *)
Definition below (x : spec_float) (mc : positive) (ec : Z) : Prop :=
  match x with
  | S754_nan => False
  | S754_infinity s => s = true
  | S754_zero _ => True
  | S754_finite true _ _ => True
  | S754_finite false m e => e < ec \/ (e = ec /\ (m < mc)%positive)
  end.

Definition at_least (x : spec_float) (mc : positive) (ec : Z) : Prop :=
  match x with
  | S754_nan => False
  | S754_infinity s => s = false
  | S754_zero _ => False
  | S754_finite true _ _ => False
  | S754_finite false m e => ec < e \/ (e = ec /\ (mc <= m)%positive)
  end.

Definition lex_le (m2 : positive) (e2 : Z) (m1 : positive) (e1 : Z) : Prop :=
  e2 < e1 \/ (e2 = e1 /\ (m2 <= m1)%positive).

(** The keys of a dictionary, in insertion order. *)
Definition keys (v : pyval) : list string :=
  match v with
  | VDict d => map fst d
  | _ => []
  end.

Definition sample_location : Location :=
  mkLocation None (S754_finite false 4503599627370496 (-52))
             (S754_finite false 4503599627370496 (-51)) None.

(** The SO2 payload of the spec's example. *)
Definition sample_so2_payload : pyval :=
  VDict [("time", VStr "2020-01-01T00:00:00Z");
         ("location", VDict [("longitude", VStr "1.0"); ("latitude", VStr "2.0")]);
         ("data", VList [VDict [("a", VInt 1)]])].

(** The same payload with an [interval] entry added. *)
Definition so2_payload_with_interval : pyval :=
  VDict [("time", VStr "2020-01-01T00:00:00Z");
         ("interval", VStr "hour");
         ("location", VDict [("longitude", VStr "1.0"); ("latitude", VStr "2.0")]);
         ("data", VList [VDict [("a", VInt 1)]])].

Definition sample_uv_payload : pyval :=
  VDict [("date", VInt 1577836800); ("lon", VInt 12); ("lat", VStr "41.5");
         ("value", VFloat f5_9)].

(** Every occurrence of the character [c] replaced by [new]. *)
Fixpoint subst_char (c : ascii) (new : string) (s : string) : string :=
  match s with
  | EmptyString => EmptyString
  | String c' s' =>
      if Ascii.eqb c c' then new ++ subst_char c new s'
      else String c' (subst_char c new s')
  end.

(** The five labels of the classifier, from the mildest to the gravest, and
    the place of a label among them. *)
Definition risk_labels : list string :=
  ["low"; "moderate"; "high"; "very high"; "extreme"].

Definition risk_rank (label : string) : nat :=
  if String.eqb label "low" then 0
  else if String.eqb label "moderate" then 1
  else if String.eqb label "high" then 2
  else if String.eqb label "very high" then 3
  else 4.

(** How many of the four positive thresholds a float has reached. *)
Definition tier_of (x : spec_float) : nat :=
  (Nat.b2n (SFleb f2_9 x) + Nat.b2n (SFleb f5_9 x)
   + Nat.b2n (SFleb f7_9 x) + Nat.b2n (SFleb f10_9 x))%nat.

(** The rewriting of the time string in [SO2Index.from_dict]: every [Z]
    becomes [+00], then every [T] a space. *)
Definition iso_rewrite (s : string) : string :=
  str_replace "T" " " (str_replace "Z" "+00" s).

(** The characters of a string. *)
Definition chars (s : string) : list ascii := list_ascii_of_string s.

(** Payloads that parse field by field and fail in the constructor. *)
Definition so2_payload_data_dict : pyval :=
  VDict [("time", VStr "2020-01-01T00:00:00Z");
         ("location", VDict [("longitude", VStr "1.0"); ("latitude", VStr "2.0")]);
         ("data", VDict [("a", VInt 1)])].

Definition uv_payload_date_string : pyval :=
  VDict [("date", VStr "1577836800"); ("lon", VInt 12); ("lat", VStr "41.5");
         ("value", VFloat f5_9)].

(** The malformed-data errors of the two parsers, with the [KeyError] of
    the key that was not found as their context. *)
Definition uv_malformed (key : string) : exn :=
  ParseResponseError "pyowm.uvindexapi30.uvindex: impossible to parse UV Index"
                     (Some (KeyError key)).

Definition so2_malformed (key : string) : exn :=
  ParseResponseError "pyowm.pollutionapi30.so2index: impossible to parse COIndex"
                     (Some (KeyError key)).

(** ** The order of floats against a positive literal *)

Lemma SFcompare_antisym (a b : spec_float) :
  SFcompare b a = option_map CompOpp (SFcompare a b).
Proof.
  destruct a as [sa|sa| |sa ma ea], b as [sb|sb| |sb mb eb]; simpl;
    try reflexivity;
    try (destruct sa; reflexivity); try (destruct sb; reflexivity);
    try (destruct sa, sb; reflexivity).
  pose proof (Pos.compare_cont_antisym ma mb Eq) as Hm; simpl in Hm.
  destruct sa, sb; simpl; try reflexivity;
    rewrite (Z.compare_antisym ea eb);
    destruct (ea ?= eb)%Z; simpl; try reflexivity;
    rewrite <- Hm; now rewrite ?CompOpp_involutive.
Qed.


Lemma SFltb_below (x : spec_float) (mc : positive) (ec : Z) :
  SFltb x (S754_finite false mc ec) = true <-> below x mc ec.
Proof.
  unfold SFltb.
  destruct x as [s|s| |s m e]; simpl.
  - tauto.
  - destruct s; simpl; split; congruence.
  - split; [discriminate | tauto].
  - destruct s; [tauto|].
    rewrite Pos.compare_cont_spec. simpl.
    destruct (Z.compare_spec e ec) as [He|He|He].
    + destruct (Pos.compare_spec m mc); split;
        try discriminate; try tauto; intros [H'|[_ H']]; lia.
    + split; [left; exact He | reflexivity].
    + split; [discriminate | intros [H'|[H' _]]; lia].
Qed.

Lemma SFleb_at_least (x : spec_float) (mc : positive) (ec : Z) :
  SFleb (S754_finite false mc ec) x = true <-> at_least x mc ec.
Proof.
  unfold SFleb.
  destruct x as [s|s| |s m e]; simpl.
  - split; [discriminate | tauto].
  - destruct s; simpl; split; congruence.
  - split; [discriminate | tauto].
  - destruct s; [split; [discriminate | tauto]|].
    rewrite Pos.compare_cont_spec. simpl.
    destruct (Z.compare_spec ec e) as [He|He|He].
    + destruct (Pos.compare_spec mc m); split;
        try discriminate; try reflexivity; try (intros _; right; lia);
        intros [H'|[_ H']]; lia.
    + split; [left; exact He | reflexivity].
    + split; [discriminate | intros [H'|[H' _]]; lia].
Qed.

(** The classifier on a float, with the chained comparisons spelled out. *)
Lemma uv_risk_float (x : spec_float) :
  uv_intensity_to_exposure_risk (VFloat x) =
  Ok (if SFleb f0_0 x && SFltb x f2_9 then "low"
      else if SFleb f2_9 x && SFltb x f5_9 then "moderate"
      else if SFleb f5_9 x && SFltb x f7_9 then "high"
      else if SFleb f7_9 x && SFltb x f10_9 then "very high"
      else "extreme").
Proof.
  unfold uv_intensity_to_exposure_risk, between, le_lit, lt_lit, bind, as_num.
  change (num_leb (NFloat ?a) (NFloat ?b)) with (SFleb a b).
  change (num_ltb (NFloat ?a) (NFloat ?b)) with (SFltb a b).
  destruct (SFleb f0_0 x); simpl;
    [destruct (SFltb x f2_9); simpl; [reflexivity|]|];
    (destruct (SFleb f2_9 x); simpl;
     [destruct (SFltb x f5_9); simpl; [reflexivity|]|]);
    (destruct (SFleb f5_9 x); simpl;
     [destruct (SFltb x f7_9); simpl; [reflexivity|]|]);
    (destruct (SFleb f7_9 x); simpl;
     [destruct (SFltb x f10_9); simpl; reflexivity|]);
    reflexivity.
Qed.

(** A float at or above a literal is not below a smaller literal. *)
Lemma leb_then_not_ltb (x : spec_float) (m1 : positive) (e1 : Z)
      (m2 : positive) (e2 : Z) :
  SFleb (S754_finite false m1 e1) x = true ->
  lex_le m2 e2 m1 e1 ->
  SFltb x (S754_finite false m2 e2) = false.
Proof.
  intros Hle Hc.
  destruct (SFltb x (S754_finite false m2 e2)) eqn:Hlt; [exfalso|reflexivity].
  apply SFleb_at_least in Hle. apply SFltb_below in Hlt.
  unfold lex_le in Hc.
  destruct x as [s|s| |[|] m e]; cbn [below at_least] in *;
    try contradiction; try congruence.
  lia.
Qed.

(** A float below zero is not at or above zero or a positive literal. *)
Lemma ltb_zero_not_leb (x : spec_float) :
  SFltb x f0_0 = true ->
  SFleb f0_0 x = false /\
  forall m e, SFleb (S754_finite false m e) x = false.
Proof.
  destruct x as [s|[|]| |[|] m' e']; try discriminate; intros _;
    split; reflexivity.
Qed.

Ltac literal_le := unfold lex_le; lia.

(** Settles every test [x < c] whose literal [c] is at or below the
    literal of the hypothesis [H : c' <= x]. *)
Ltac tests_below x H :=
  repeat match goal with
    | |- context [SFltb x (S754_finite false ?m ?e)] =>
        rewrite (leb_then_not_ltb x _ _ m e H ltac:(literal_le))
    end;
  rewrite ?andb_false_r.

Ltac risk_interval x Hle :=
  rewrite uv_risk_float;
  unfold f2_9, f5_9, f7_9, f10_9 in *;
  tests_below x Hle;
  repeat match goal with
    | H : _ = true |- _ => rewrite H
    end;
  reflexivity.

(** ** The exposure-risk classifier *)

Lemma literals_are_nearest :
  float (VStr "0.0") = Ok f0_0 /\ float (VStr "2.9") = Ok f2_9 /\
  float (VStr "5.9") = Ok f5_9 /\ float (VStr "7.9") = Ok f7_9 /\
  float (VStr "10.9") = Ok f10_9.
Proof. repeat split; vm_compute; reflexivity. Qed.

(** The literals are canonical binary64 numbers. *)
Lemma literals_are_canonical :
  forallb is_binary64 [f0_0; f2_9; f5_9; f7_9; f10_9] = true.
Proof. vm_compute. reflexivity. Qed.

(** The same literals, as the kernel's own binary64 numbers read them. *)
Lemma literals_are_binary64 :
  Prim2SF 0x0p+0%float = f0_0 /\
  Prim2SF 0x1.7333333333333p+1%float = f2_9 /\
  Prim2SF 0x1.799999999999ap+2%float = f5_9 /\
  Prim2SF 0x1.f99999999999ap+2%float = f7_9 /\
  Prim2SF 0x1.5cccccccccccdp+3%float = f10_9.
Proof. repeat split; vm_compute; reflexivity. Qed.

(** [float] on strings at the edge of what it accepts: white space is the
    ASCII white space and the Unicode white space past ASCII (a no-break
    space here), so the separator byte 28 is not; decimal digits of any
    script count; underscores only between digits. *)
Lemma float_of_string_samples :
  float_of_string (String (ascii_of_nat 28) "1.5") = None /\
  float_of_string (String (ascii_of_nat 194) (String (ascii_of_nat 160) "1.5"))
  = float_of_string "1.5" /\
  float_of_string (" 1.5" ++ String (ascii_of_nat 10) "") = float_of_string "1.5" /\
  float_of_string "١٢" = float_of_string "12" /\
  float_of_string "١٢.٥e-١" = float_of_string "1.25" /\
  float_of_string "1_000.5" = float_of_string "1000.5" /\
  float_of_string "1__0" = None /\ float_of_string "_1" = None /\
  float_of_string "1e" = None /\ float_of_string "" = None /\
  float_of_string "0x10" = None /\ float_of_string "1 5" = None /\
  float_of_string "-Infinity" = Some (S754_infinity true) /\
  float_of_string "nan" = Some S754_nan /\
  float_of_string "1e400" = Some (S754_infinity false) /\
  float_of_string "9007199254740993" = float_of_string "9007199254740992" /\
  float_of_string "1.5" = Some (S754_finite false 6755399441055744 (-52)).
Proof. repeat split; vm_compute; reflexivity. Qed.

(** C1. The classifier is piecewise over half-open intervals: [low] on
    [0.0 <= x < 2.9], [moderate] on [2.9 <= x < 5.9], [high] on
    [5.9 <= x < 7.9], [very high] on [7.9 <= x < 10.9] and [extreme] on
    [10.9 <= x], for every float [x]; and the eight sample points of the
    spec fall where it says. *)
Theorem uv_risk_piecewise :
  (forall x, SFleb f0_0 x = true -> SFltb x f2_9 = true ->
             uv_intensity_to_exposure_risk (VFloat x) = Ok "low") /\
  (forall x, SFleb f2_9 x = true -> SFltb x f5_9 = true ->
             uv_intensity_to_exposure_risk (VFloat x) = Ok "moderate") /\
  (forall x, SFleb f5_9 x = true -> SFltb x f7_9 = true ->
             uv_intensity_to_exposure_risk (VFloat x) = Ok "high") /\
  (forall x, SFleb f7_9 x = true -> SFltb x f10_9 = true ->
             uv_intensity_to_exposure_risk (VFloat x) = Ok "very high") /\
  (forall x, SFleb f10_9 x = true ->
             uv_intensity_to_exposure_risk (VFloat x) = Ok "extreme") /\
  risk_of_literal "0.0" = Ok "low" /\
  risk_of_literal "2.89" = Ok "low" /\
  risk_of_literal "2.9" = Ok "moderate" /\
  risk_of_literal "5.9" = Ok "high" /\
  risk_of_literal "7.89" = Ok "high" /\
  risk_of_literal "7.9" = Ok "very high" /\
  risk_of_literal "10.9" = Ok "extreme" /\
  risk_of_literal "100.0" = Ok "extreme".
Proof.
  split; [intros x Hle Hlt; rewrite uv_risk_float, Hle, Hlt; reflexivity|].
  do 3 (split; [intros x Hle Hlt; risk_interval x Hle|]).
  split; [intros x Hle; risk_interval x Hle|].
  repeat split; vm_compute; reflexivity.
Qed.

(** C9. A float below [0.0] falls through every interval test to the final
    [else], so it is classified [extreme]. *)
Theorem uv_risk_negative (x : spec_float) :
  SFltb x f0_0 = true ->
  uv_intensity_to_exposure_risk (VFloat x) = Ok "extreme".
Proof.
  intros Hneg. destruct (ltb_zero_not_leb x Hneg) as [H0 Hpos].
  rewrite uv_risk_float, H0.
  unfold f2_9, f5_9, f7_9, f10_9. rewrite !Hpos. reflexivity.
Qed.

(** ** Construction *)

Lemma lt_lit_int (z c : Z) : lt_lit (VInt z) (NInt c) = Ok (z <? c).
Proof. reflexivity. Qed.

Lemma lt_lit_float (v c : spec_float) :
  lt_lit (VFloat v) (NFloat c) = Ok (SFltb v c).
Proof. reflexivity. Qed.

(** A record that was built holds exactly the arguments of the call. *)
Lemma so2_init_ok (rt : pyval) (loc : Location) (itv smp rc : pyval)
      (r : SO2Index.t) :
  SO2Index.__init__ rt loc itv smp rc = Ok r ->
  r = SO2Index.mk rt loc itv smp rc /\
  lt_lit rt (NInt 0) = Ok false /\ isinstance_list smp = true /\
  lt_lit rc (NInt 0) = Ok false.
Proof.
  unfold SO2Index.__init__, bind.
  destruct (lt_lit rt (NInt 0)) as [[|]|]; try discriminate.
  destruct (isinstance_list smp); simpl; try discriminate.
  destruct (lt_lit rc (NInt 0)) as [[|]|]; try discriminate.
  intros H; inversion H; auto.
Qed.

Lemma uv_init_ok (rt : pyval) (loc : Location) (v rc : pyval) (r : UVIndex.t) :
  UVIndex.__init__ rt loc v rc = Ok r ->
  r = UVIndex.mk rt loc v rc /\
  lt_lit rt (NInt 0) = Ok false /\ lt_lit v (NFloat f0_0) = Ok false /\
  lt_lit rc (NInt 0) = Ok false.
Proof.
  unfold UVIndex.__init__, bind.
  destruct (lt_lit rt (NInt 0)) as [[|]|]; try discriminate.
  destruct (lt_lit v (NFloat f0_0)) as [[|]|]; try discriminate.
  destruct (lt_lit rc (NInt 0)) as [[|]|]; try discriminate.
  intros H; inversion H; auto.
Qed.

Lemma so2_init_valid (a b : Z) (loc : Location) (itv : pyval) (l : list pyval) :
  0 <= a -> 0 <= b ->
  SO2Index.__init__ (VInt a) loc itv (VList l) (VInt b) =
  Ok (SO2Index.mk (VInt a) loc itv (VList l) (VInt b)).
Proof.
  intros Ha Hb. unfold SO2Index.__init__, bind. rewrite !lt_lit_int.
  destruct (Z.ltb_spec a 0); [lia|]. destruct (Z.ltb_spec b 0); [lia|].
  reflexivity.
Qed.

Lemma uv_init_valid (rt : pyval) (b : Z) (loc : Location) (v : spec_float) :
  lt_lit rt (NInt 0) = Ok false -> SFltb v f0_0 = false -> 0 <= b ->
  UVIndex.__init__ rt loc (VFloat v) (VInt b) =
  Ok (UVIndex.mk rt loc (VFloat v) (VInt b)).
Proof.
  intros Ha Hv Hb. unfold UVIndex.__init__, bind.
  rewrite Ha, lt_lit_float, Hv, lt_lit_int.
  destruct (Z.ltb_spec b 0); [lia|]. reflexivity.
Qed.

(** The reference time formatter on sample times: the [iso] string of a
    time parses back to it. *)
Lemma RefTime_samples :
  RefTime.ISO8601_to_UNIXtime "2020-01-01 00:00:00+00" = Ok 1577836800 /\
  RefTime.timeformat (VInt 1577836800) "iso" = Ok (VStr "2020-01-01 00:00:00+00") /\
  RefTime.timeformat (VInt 1709210096) "iso" = Ok (VStr "2024-02-29 12:34:56+00") /\
  RefTime.ISO8601_to_UNIXtime "2024-02-29 12:34:56+00" = Ok 1709210096 /\
  RefTime.timeformat (VInt 0) "date"
  = Ok (VTuple [VInt 1970; VInt 1; VInt 1; VInt 0; VInt 0; VInt 0]) /\
  RefTime.timeformat (VInt (-1)) "unix"
  = Raise (ValueError "The time value is a negative number").
Proof. repeat split; vm_compute; reflexivity. Qed.

Lemma RefTime_timeformat_unix (z : Z) :
  0 <= z -> RefTime.timeformat (VInt z) "unix" = Ok (VInt z).
Proof.
  intros Hz. unfold RefTime.timeformat.
  destruct (Z.ltb_spec z 0); [lia|]. reflexivity.
Qed.

(** C2, as the code has it.  With valid times, construction fails with an
    invalid-argument error exactly when [so2_samples] is not a list: every
    list is accepted, and a tuple, a string, a dictionary and a number are
    all rejected, although tuples and strings are sequences. *)
Theorem so2_samples_must_be_list (a b : Z) (loc : Location) (itv smp : pyval) :
  0 <= a -> 0 <= b ->
  ((exists msg, SO2Index.__init__ (VInt a) loc itv smp (VInt b)
                = Raise (ValueError msg))
   <-> isinstance_list smp = false) /\
  (forall l, smp = VList l ->
             SO2Index.__init__ (VInt a) loc itv smp (VInt b)
             = Ok (SO2Index.mk (VInt a) loc itv smp (VInt b))) /\
  (forall l d n f s,
      In smp [VTuple l; VStr s; VDict d; VInt n; VFloat f] ->
      SO2Index.__init__ (VInt a) loc itv smp (VInt b)
      = Raise (ValueError "'so2_samples' must be a list")).
Proof.
  intros Ha Hb.
  assert (Hrej : isinstance_list smp = false ->
                 SO2Index.__init__ (VInt a) loc itv smp (VInt b)
                 = Raise (ValueError "'so2_samples' must be a list")).
  { intros Hs. unfold SO2Index.__init__, bind. rewrite lt_lit_int.
    destruct (Z.ltb_spec a 0); [lia|]. rewrite Hs. reflexivity. }
  repeat split.
  - intros [msg Hmsg]. destruct smp; try reflexivity.
    rewrite (so2_init_valid a b loc itv l Ha Hb) in Hmsg. discriminate.
  - intros Hs. eexists. apply Hrej, Hs.
  - intros l ->. apply so2_init_valid; assumption.
  - intros l d n f s Hin. apply Hrej.
    simpl in Hin.
    destruct Hin as [<-|[<-|[<-|[<-|[<-|[]]]]]]; reflexivity.
Qed.

Lemma so2_samples_must_be_list_witness :
  SO2Index.__init__ (VInt 5) sample_location (VStr "hour")
                    (VList [VDict [("a", VInt 1)]]) (VInt 7)
  = Ok (SO2Index.mk (VInt 5) sample_location (VStr "hour")
                    (VList [VDict [("a", VInt 1)]]) (VInt 7)).
Proof.
  refine (proj1 (proj2 (so2_samples_must_be_list 5 7 sample_location (VStr "hour")
                          (VList [VDict [("a", VInt 1)]]) _ _)) _ eq_refl); lia.
Defined.

(** C2, as the spec states it, fails: a tuple is a sequence, and the
    constructor rejects it. *)
Lemma so2_samples_tuple_rejected :
  is_sequence (VTuple [VDict [("a", VInt 1)]]) = true /\
  SO2Index.__init__ (VInt 0) sample_location VNone
                    (VTuple [VDict [("a", VInt 1)]]) (VInt 0)
  = Raise (ValueError "'so2_samples' must be a list").
Proof. split; reflexivity. Qed.

Section Construction.
Variable timeformat : pyval -> string -> result pyval.
Hypothesis timeformat_unix :
  forall z, 0 <= z -> timeformat (VInt z) "unix" = Ok (VInt z).


(** C4. [is_forecast] holds exactly when the clock reads strictly less
    than the reference time the record was built with; at equal times it
    is false. *)
Theorem is_forecast_strict (now a : Z) (loc : Location) (itv smp rc : pyval)
        (r : SO2Index.t) :
  SO2Index.__init__ (VInt a) loc itv smp rc = Ok r ->
  SO2Index.is_forecast timeformat now r = Ok (now <? a) /\
  (SO2Index.is_forecast timeformat now r = Ok true <-> now < a) /\
  (now = a -> SO2Index.is_forecast timeformat now r = Ok false).
Proof.
  intros Hr. apply so2_init_ok in Hr. destruct Hr as (-> & Ha & _ & _).
  rewrite lt_lit_int in Ha.
  assert (Hnn : 0 <= a) by (destruct (Z.ltb_spec a 0); [discriminate|lia]).
  assert (Hf : SO2Index.is_forecast timeformat now
                 (SO2Index.mk (VInt a) loc itv smp rc) = Ok (now <? a)).
  { unfold SO2Index.is_forecast, SO2Index.get_reference_time, bind. simpl.
    rewrite timeformat_unix by assumption. reflexivity. }
  rewrite Hf. repeat split.
  - intros H. inversion H as [H']. apply Z.ltb_lt, H'.
  - intros H. apply Z.ltb_lt in H. rewrite H. reflexivity.
  - intros ->. rewrite Z.ltb_irrefl. reflexivity.
Qed.
End Construction.


Lemma is_forecast_strict_witness :
  SO2Index.is_forecast RefTime.timeformat 100
    (SO2Index.mk (VInt 200) sample_location VNone (VList []) (VInt 100)) = Ok true /\
  SO2Index.is_forecast RefTime.timeformat 200
    (SO2Index.mk (VInt 200) sample_location VNone (VList []) (VInt 100)) = Ok false.
Proof.
  split.
  - exact (proj1 (is_forecast_strict RefTime.timeformat RefTime_timeformat_unix
                    100 200 sample_location VNone (VList []) (VInt 100) _ eq_refl)).
  - exact (proj1 (is_forecast_strict RefTime.timeformat RefTime_timeformat_unix
                    200 200 sample_location VNone (VList []) (VInt 100) _ eq_refl)).
Defined.

Lemma uv_risk_negative_witness :
  uv_intensity_to_exposure_risk
    (VFloat (S754_finite true 6755399441055744 (-52))) = Ok "extreme".
Proof.
  exact (uv_risk_negative (S754_finite true 6755399441055744 (-52)) eq_refl).
Defined.

(** ** Parsing *)

Lemma str_replace_char (c : ascii) (new s : string) :
  str_replace (String c EmptyString) new s = subst_char c new s.
Proof.
  assert (Hp : forall u, String.prefix EmptyString u = true)
    by (intros [|]; reflexivity).
  unfold str_replace. induction s as [|c' s IH]; [reflexivity|].
  simpl. destruct (Ascii.ascii_dec c c') as [->|Hne].
  - rewrite Ascii.eqb_refl, Hp, IH. reflexivity.
  - apply Ascii.eqb_neq in Hne. rewrite Hne, IH. reflexivity.
Qed.

Section Parsing.
Variable timeformat : pyval -> string -> result pyval.
Hypothesis timeformat_unix :
  forall z, 0 <= z -> timeformat (VInt z) "unix" = Ok (VInt z).
Variable ISO8601_to_UNIXtime : string -> result Z.
Variable Location_to_dict : Location -> pyval.

Lemma so2_from_dict_ok (now t : Z) (d locd : list (string * pyval))
      (s : string) (lon_v lat_v : pyval) (lon lat : spec_float)
      (samples : list pyval) :
  assoc "time" d = Some (VStr s) ->
  ISO8601_to_UNIXtime (subst_char "T" " " (subst_char "Z" "+00" s)) = Ok t ->
  assoc "location" d = Some (VDict locd) ->
  assoc "longitude" locd = Some lon_v -> float lon_v = Ok lon ->
  assoc "latitude" locd = Some lat_v -> float lat_v = Ok lat ->
  assoc "data" d = Some (VList samples) ->
  0 <= t -> 0 <= now ->
  SO2Index.from_dict ISO8601_to_UNIXtime now (VDict d)
  = Ok (SO2Index.mk (VInt t) (mkLocation None lon lat None) VNone
                    (VList samples) (VInt now)).
Proof.
  intros Htime Hiso Hloc Hlon Hflon Hlat Hflat Hdata Ht Hnow.
  unfold SO2Index.from_dict, except_KeyError, bind, getitem, replace.
  rewrite Htime, !str_replace_char, Hiso, Hloc, Hlon, Hflon, Hlat, Hflat, Hdata.
  apply so2_init_valid; assumption.
Qed.

(** C6. [SO2Index.from_dict] reads the reference time from [time], every
    [Z] replaced by [+00] and every [T] by a space, through the ISO 8601
    parser; builds the location from the two coordinates coerced to
    float; and takes the samples from [data] as they are.  On the payload
    of the spec's example the longitude is 1.0, the latitude 2.0 and the
    samples are the list holding the one dictionary. *)
Theorem so2_from_dict_fields (now : Z) :
  (forall (t : Z) (d locd : list (string * pyval)) (s : string)
          (lon_v lat_v : pyval) (lon lat : spec_float) (samples : list pyval),
      assoc "time" d = Some (VStr s) ->
      ISO8601_to_UNIXtime (subst_char "T" " " (subst_char "Z" "+00" s)) = Ok t ->
      assoc "location" d = Some (VDict locd) ->
      assoc "longitude" locd = Some lon_v -> float lon_v = Ok lon ->
      assoc "latitude" locd = Some lat_v -> float lat_v = Ok lat ->
      assoc "data" d = Some (VList samples) ->
      0 <= t -> 0 <= now ->
      SO2Index.from_dict ISO8601_to_UNIXtime now (VDict d)
      = Ok (SO2Index.mk (VInt t) (mkLocation None lon lat None) VNone
                        (VList samples) (VInt now))) /\
  (forall t : Z,
      ISO8601_to_UNIXtime "2020-01-01 00:00:00+00" = Ok t -> 0 <= t -> 0 <= now ->
      exists r,
        SO2Index.from_dict ISO8601_to_UNIXtime now sample_so2_payload = Ok r /\
        SO2Index.get_location r = sample_location /\
        float (VStr "1.0") = Ok (loc_lon sample_location) /\
        float (VStr "2.0") = Ok (loc_lat sample_location) /\
        SO2Index.get_so2_samples r = VList [VDict [("a", VInt 1)]] /\
        SO2Index._reference_time r = VInt t).
Proof.
  split.
  - intros; eapply so2_from_dict_ok; eassumption.
  - intros t Hiso Ht Hnow. eexists. split.
    + unfold sample_so2_payload.
      eapply so2_from_dict_ok with (s := "2020-01-01T00:00:00Z") (t := t);
        try eassumption; reflexivity.
    + repeat split.
Qed.

Lemma uv_from_dict_ok (now : Z) (d : list (string * pyval))
      (date lon_v lat_v val_v : pyval) (lon lat val : spec_float) :
  assoc "date" d = Some date -> lt_lit date (NInt 0) = Ok false ->
  assoc "lon" d = Some lon_v -> float lon_v = Ok lon ->
  assoc "lat" d = Some lat_v -> float lat_v = Ok lat ->
  assoc "value" d = Some val_v -> float val_v = Ok val ->
  SFltb val f0_0 = false -> 0 <= now ->
  UVIndex.from_dict now (VDict d)
  = Ok (UVIndex.mk date (mkLocation None lon lat None) (VFloat val) (VInt now)).
Proof.
  intros Hdate Hd Hlon Hflon Hlat Hflat Hval Hfval Hv Hnow.
  unfold UVIndex.from_dict, except_KeyError, bind, getitem.
  rewrite Hdate, Hlon, Hflon, Hlat, Hflat, Hval, Hfval.
  apply uv_init_valid; assumption.
Qed.

(** C7. [UVIndex.from_dict] keeps the value at [date] as it is, stamps the
    reception time with the clock, builds the location from [lon] and
    [lat] coerced to float and takes the value from [value] coerced to
    float; the accessors of the record give these back. *)
Theorem uv_from_dict_fields (now : Z) (d : list (string * pyval))
        (date lon_v lat_v val_v : pyval) (lon lat val : spec_float) :
  assoc "date" d = Some date -> lt_lit date (NInt 0) = Ok false ->
  assoc "lon" d = Some lon_v -> float lon_v = Ok lon ->
  assoc "lat" d = Some lat_v -> float lat_v = Ok lat ->
  assoc "value" d = Some val_v -> float val_v = Ok val ->
  SFltb val f0_0 = false -> 0 <= now ->
  exists r,
    UVIndex.from_dict now (VDict d) = Ok r /\
    UVIndex._reference_time r = date /\
    (forall z, date = VInt z ->
               UVIndex.get_reference_time timeformat r "unix" = Ok (VInt z)) /\
    UVIndex.get_reception_time timeformat r "unix" = Ok (VInt now) /\
    UVIndex.get_location r = mkLocation None lon lat None /\
    UVIndex.get_value r = VFloat val.
Proof.
  intros Hdate Hd Hlon Hflon Hlat Hflat Hval Hfval Hv Hnow.
  eexists. split; [eapply uv_from_dict_ok; eassumption|].
  unfold UVIndex.get_reference_time, UVIndex.get_reception_time. simpl.
  repeat split.
  - intros z ->. rewrite lt_lit_int in Hd. apply timeformat_unix.
    destruct (Z.ltb_spec z 0); [discriminate|lia].
  - apply timeformat_unix, Hnow.
Qed.
End Parsing.

Lemma so2_from_dict_fields_witness :
  SO2Index.from_dict RefTime.ISO8601_to_UNIXtime 1700000000 sample_so2_payload
  = Ok (SO2Index.mk (VInt 1577836800) sample_location VNone
                    (VList [VDict [("a", VInt 1)]]) (VInt 1700000000)).
Proof.
  unfold sample_so2_payload.
  apply (proj1 (so2_from_dict_fields RefTime.ISO8601_to_UNIXtime 1700000000))
    with (s := "2020-01-01T00:00:00Z") (lon_v := VStr "1.0") (lat_v := VStr "2.0")
         (locd := [("longitude", VStr "1.0"); ("latitude", VStr "2.0")]);
    try reflexivity; lia.
Defined.

Lemma uv_from_dict_fields_witness :
  exists r,
    UVIndex.from_dict 1700000000 sample_uv_payload = Ok r /\
    UVIndex._reference_time r = VInt 1577836800 /\
    (forall z, VInt 1577836800 = VInt z ->
               UVIndex.get_reference_time RefTime.timeformat r "unix" = Ok (VInt z)) /\
    UVIndex.get_reception_time RefTime.timeformat r "unix" = Ok (VInt 1700000000) /\
    UVIndex.get_location r
    = mkLocation None (S754_finite false 6755399441055744 (-49))
                 (S754_finite false 5840605766746112 (-47)) None /\
    UVIndex.get_value r = VFloat f5_9.
Proof.
  unfold sample_uv_payload.
  apply (uv_from_dict_fields RefTime.timeformat RefTime_timeformat_unix)
    with (lon_v := VInt 12) (lat_v := VStr "41.5") (val_v := VFloat f5_9);
    try reflexivity; lia.
Defined.

(** ** Failures of the parsers *)

Section Failures.
Variable ISO8601_to_UNIXtime : string -> result Z.

(** The part of C5 that the code keeps: [None] is data-absent, and the
    first key that is missing, in the order in which the parser reads the
    payload, is reported as malformed-data carrying that [KeyError], as long
    as the fields read before it could be parsed; the fields after it are
    not looked at. *)
Lemma from_dict_None (now : Z) :
  UVIndex.from_dict now VNone = Raise (ParseResponseError "Data is None" None) /\
  SO2Index.from_dict ISO8601_to_UNIXtime now VNone
  = Raise (ParseResponseError "Data is None" None).
Proof. split; reflexivity. Qed.

Theorem from_dict_missing_key (now : Z) (d : list (string * pyval)) :
  (UVIndex.from_dict now VNone = Raise (ParseResponseError "Data is None" None) /\
   SO2Index.from_dict ISO8601_to_UNIXtime now VNone
   = Raise (ParseResponseError "Data is None" None)) /\
  (assoc "date" d = None ->
   UVIndex.from_dict now (VDict d) = Raise (uv_malformed "date")) /\
  (forall date,
      assoc "date" d = Some date -> assoc "lon" d = None ->
      UVIndex.from_dict now (VDict d) = Raise (uv_malformed "lon")) /\
  (forall date lon_v lon,
      assoc "date" d = Some date ->
      assoc "lon" d = Some lon_v -> float lon_v = Ok lon ->
      assoc "lat" d = None ->
      UVIndex.from_dict now (VDict d) = Raise (uv_malformed "lat")) /\
  (forall date lon_v lon lat_v lat,
      assoc "date" d = Some date ->
      assoc "lon" d = Some lon_v -> float lon_v = Ok lon ->
      assoc "lat" d = Some lat_v -> float lat_v = Ok lat ->
      assoc "value" d = None ->
      UVIndex.from_dict now (VDict d) = Raise (uv_malformed "value")) /\
  (assoc "time" d = None ->
   SO2Index.from_dict ISO8601_to_UNIXtime now (VDict d)
   = Raise (so2_malformed "time")) /\
  (forall s t,
      assoc "time" d = Some (VStr s) ->
      ISO8601_to_UNIXtime (iso_rewrite s) = Ok t ->
      assoc "location" d = None ->
      SO2Index.from_dict ISO8601_to_UNIXtime now (VDict d)
      = Raise (so2_malformed "location")) /\
  (forall s t locd,
      assoc "time" d = Some (VStr s) ->
      ISO8601_to_UNIXtime (iso_rewrite s) = Ok t ->
      assoc "location" d = Some (VDict locd) ->
      assoc "longitude" locd = None ->
      SO2Index.from_dict ISO8601_to_UNIXtime now (VDict d)
      = Raise (so2_malformed "longitude")) /\
  (forall s t locd lon_v lon,
      assoc "time" d = Some (VStr s) ->
      ISO8601_to_UNIXtime (iso_rewrite s) = Ok t ->
      assoc "location" d = Some (VDict locd) ->
      assoc "longitude" locd = Some lon_v -> float lon_v = Ok lon ->
      assoc "latitude" locd = None ->
      SO2Index.from_dict ISO8601_to_UNIXtime now (VDict d)
      = Raise (so2_malformed "latitude")) /\
  (forall s t locd lon_v lon lat_v lat,
      assoc "time" d = Some (VStr s) ->
      ISO8601_to_UNIXtime (iso_rewrite s) = Ok t ->
      assoc "location" d = Some (VDict locd) ->
      assoc "longitude" locd = Some lon_v -> float lon_v = Ok lon ->
      assoc "latitude" locd = Some lat_v -> float lat_v = Ok lat ->
      assoc "data" d = None ->
      SO2Index.from_dict ISO8601_to_UNIXtime now (VDict d)
      = Raise (so2_malformed "data")).
Proof.
  split; [apply from_dict_None|].
  unfold UVIndex.from_dict, SO2Index.from_dict, except_KeyError, bind, getitem,
    replace, iso_rewrite.
  repeat match goal with |- _ /\ _ => split end; intros;
    repeat match goal with
      | H : _ = _ |- _ => rewrite H; clear H
      end;
    reflexivity.
Qed.

(** C5, where the code leaves it: a field that cannot be parsed is read
    before the missing key is reached, and its error is not a [KeyError],
    so it leaves [from_dict] as it is instead of as malformed-data. *)
Theorem from_dict_unparsable_escapes (now : Z) :
  UVIndex.from_dict now (VDict [("date", VInt 1); ("lon", VNone)])
  = Raise TypeError /\
  UVIndex.from_dict now (VDict [("date", VInt 1); ("lon", VStr "abc")])
  = Raise (ValueError "could not convert string to float") /\
  SO2Index.from_dict ISO8601_to_UNIXtime now (VDict [("time", VNone)])
  = Raise AttributeError.
Proof. repeat split. Qed.
End Failures.

(** ** Serialising *)

Section Serialising.
Variable ISO8601_to_UNIXtime : string -> result Z.
Variable Location_to_dict : Location -> pyval.

(** C8. [to_dict] gives, for every record, a dictionary with exactly the
    keys of the class's canonical shape, each mapped to the stored field,
    and [location] mapped to the location's own dictionary. *)
Theorem to_dict_shape :
  (forall r : SO2Index.t,
      let out := SO2Index.to_dict Location_to_dict r in
      keys out = ["reference_time"; "location"; "interval"; "so2_samples";
                  "reception_time"] /\
      NoDup (keys out) /\
      getitem out "reference_time" = Ok (SO2Index._reference_time r) /\
      getitem out "location" = Ok (Location_to_dict (SO2Index._location r)) /\
      getitem out "interval" = Ok (SO2Index._interval r) /\
      getitem out "so2_samples" = Ok (SO2Index._so2_samples r) /\
      getitem out "reception_time" = Ok (SO2Index._reception_time r)) /\
  (forall r : UVIndex.t,
      let out := UVIndex.to_dict Location_to_dict r in
      keys out = ["reference_time"; "location"; "value"; "reception_time"] /\
      NoDup (keys out) /\
      getitem out "reference_time" = Ok (UVIndex._reference_time r) /\
      getitem out "location" = Ok (Location_to_dict (UVIndex._location r)) /\
      getitem out "value" = Ok (UVIndex._value r) /\
      getitem out "reception_time" = Ok (UVIndex._reception_time r)).
Proof.
  split; intros r; simpl; repeat split;
    repeat (constructor; [simpl; intuition discriminate|]); constructor.
Qed.

(** C10. A record that [SO2Index.from_dict] returns has no interval: the
    accessor gives [None], and so does the [interval] key of [to_dict],
    whatever the payload held. *)
Theorem so2_from_dict_interval_unset (now : Z) (the_dict : pyval)
        (r : SO2Index.t) :
  SO2Index.from_dict ISO8601_to_UNIXtime now the_dict = Ok r ->
  SO2Index.get_interval r = VNone /\
  getitem (SO2Index.to_dict Location_to_dict r) "interval" = Ok VNone.
Proof.
  intros Hr.
  assert (Hi : SO2Index._interval r = VNone).
  { unfold SO2Index.from_dict in Hr.
    destruct the_dict; try discriminate;
      (unfold bind in Hr at 1;
       match type of Hr with
       | match ?body with _ => _ end = _ =>
           destruct body as [[[[rt place] smp] rc]|]; [|discriminate]
       end;
       apply so2_init_ok in Hr; destruct Hr as [-> _]; reflexivity). }
  unfold SO2Index.get_interval. simpl. rewrite Hi. split; reflexivity.
Qed.
End Serialising.

Lemma so2_from_dict_interval_unset_witness :
  SO2Index.from_dict RefTime.ISO8601_to_UNIXtime 1700000000
                     so2_payload_with_interval
  = Ok (SO2Index.mk (VInt 1577836800) sample_location VNone
                    (VList [VDict [("a", VInt 1)]]) (VInt 1700000000)) /\
  SO2Index.get_interval
    (SO2Index.mk (VInt 1577836800) sample_location VNone
                 (VList [VDict [("a", VInt 1)]]) (VInt 1700000000)) = VNone /\
  getitem (SO2Index.to_dict (fun _ => VNone)
             (SO2Index.mk (VInt 1577836800) sample_location VNone
                          (VList [VDict [("a", VInt 1)]]) (VInt 1700000000)))
          "interval" = Ok VNone.
Proof.
  split; [reflexivity|].
  exact (so2_from_dict_interval_unset RefTime.ISO8601_to_UNIXtime (fun _ => VNone)
           1700000000 so2_payload_with_interval _ eq_refl).
Defined.

Lemma from_dict_missing_key_witness :
  UVIndex.from_dict 1700000000
    (VDict [("date", VInt 1); ("lon", VInt 1); ("lat", VInt 1)])
  = Raise (ParseResponseError
             "pyowm.uvindexapi30.uvindex: impossible to parse UV Index"
             (Some (KeyError "value"))) /\
  UVIndex.from_dict 1700000000 (VDict [("date", VInt 1); ("lat", VStr "abc")])
  = Raise (ParseResponseError
             "pyowm.uvindexapi30.uvindex: impossible to parse UV Index"
             (Some (KeyError "lon"))) /\
  SO2Index.from_dict RefTime.ISO8601_to_UNIXtime 1700000000
    (VDict [("time", VStr "2020-01-01T00:00:00Z");
            ("location", VDict [("longitude", VStr "1.0")]);
            ("data", VStr "unread")])
  = Raise (ParseResponseError
             "pyowm.pollutionapi30.so2index: impossible to parse COIndex"
             (Some (KeyError "latitude"))).
Proof.
  split; [|split].
  - exact (proj1 (proj2 (proj2 (proj2 (proj2
             (from_dict_missing_key RefTime.ISO8601_to_UNIXtime 1700000000
                [("date", VInt 1); ("lon", VInt 1); ("lat", VInt 1)])))))
             (VInt 1) (VInt 1) _ (VInt 1) _
             eq_refl eq_refl eq_refl eq_refl eq_refl eq_refl).
  - exact (proj1 (proj2 (proj2
             (from_dict_missing_key RefTime.ISO8601_to_UNIXtime 1700000000
                [("date", VInt 1); ("lat", VStr "abc")])))
             (VInt 1) eq_refl eq_refl).
  - exact (proj1 (proj2 (proj2 (proj2 (proj2 (proj2 (proj2 (proj2 (proj2
             (from_dict_missing_key RefTime.ISO8601_to_UNIXtime 1700000000
                [("time", VStr "2020-01-01T00:00:00Z");
                 ("location", VDict [("longitude", VStr "1.0")]);
                 ("data", VStr "unread")])))))))))
             "2020-01-01T00:00:00Z" 1577836800 [("longitude", VStr "1.0")]
             (VStr "1.0") _ eq_refl eq_refl eq_refl eq_refl eq_refl eq_refl).
Defined.

(** ** More on the classifier *)

Lemma SFcompare_None (a b : spec_float) :
  SFcompare a b = None -> a = S754_nan \/ b = S754_nan.
Proof.
  destruct a as [sa|sa| |sa ma ea], b as [sb|sb| |sb mb eb]; simpl;
    try discriminate; auto.
Qed.

(** Off NaN, [a < b] is the negation of [b <= a]. *)
Lemma SFltb_negb_leb (a b : spec_float) :
  a <> S754_nan -> b <> S754_nan -> SFltb a b = negb (SFleb b a).
Proof.
  intros Ha Hb. unfold SFltb, SFleb. rewrite (SFcompare_antisym a b).
  destruct (SFcompare a b) as [[ | | ]|] eqn:E; try reflexivity.
  apply SFcompare_None in E. tauto.
Qed.

(** A float that has reached a literal has reached every smaller one. *)
Lemma SFleb_lit_chain (x : spec_float) (m1 : positive) (e1 : Z)
      (m2 : positive) (e2 : Z) :
  SFleb (S754_finite false m1 e1) x = true ->
  lex_le m2 e2 m1 e1 ->
  SFleb (S754_finite false m2 e2) x = true.
Proof.
  intros Hle Hc. apply SFleb_at_least. apply SFleb_at_least in Hle.
  unfold lex_le in Hc.
  destruct x as [s|s| |[|] m e]; cbn [at_least] in *;
    try contradiction; try assumption.
  lia.
Qed.

Lemma SFleb_lit_zero (x : spec_float) (m : positive) (e : Z) :
  SFleb (S754_finite false m e) x = true -> SFleb f0_0 x = true.
Proof.
  destruct x as [s|[|]| |[|] m' e']; simpl; intros H;
    try discriminate H; reflexivity.
Qed.

(** The tests of the classifier on a float that is not NaN, reduced to the
    five tests [c <= x], which form a chain. *)
Lemma risk_tests (x : spec_float) :
  x <> S754_nan ->
  SFltb x f0_0 = negb (SFleb f0_0 x) /\
  SFltb x f2_9 = negb (SFleb f2_9 x) /\
  SFltb x f5_9 = negb (SFleb f5_9 x) /\
  SFltb x f7_9 = negb (SFleb f7_9 x) /\
  SFltb x f10_9 = negb (SFleb f10_9 x) /\
  (SFleb f2_9 x = true -> SFleb f0_0 x = true) /\
  (SFleb f5_9 x = true -> SFleb f2_9 x = true) /\
  (SFleb f7_9 x = true -> SFleb f5_9 x = true) /\
  (SFleb f10_9 x = true -> SFleb f7_9 x = true).
Proof.
  intros Hx.
  repeat split; try (apply SFltb_negb_leb; [exact Hx|discriminate]).
  - unfold f2_9. apply SFleb_lit_zero.
  - intros H. unfold f2_9, f5_9 in *.
    apply (SFleb_lit_chain x _ _ _ _ H). literal_le.
  - intros H. unfold f5_9, f7_9 in *.
    apply (SFleb_lit_chain x _ _ _ _ H). literal_le.
  - intros H. unfold f7_9, f10_9 in *.
    apply (SFleb_lit_chain x _ _ _ _ H). literal_le.
Qed.

Ltac split_ands := repeat match goal with |- _ /\ _ => split end.

(** Splits on the five tests [c <= x], drops the splits that break the
    chain, and leaves the label to computation. *)
Ltac chain_cases x :=
  destruct (risk_tests x) as (L0 & L1 & L2 & L3 & L4 & C1 & C2 & C3 & C4);
  [assumption|];
  rewrite ?uv_risk_float, ?L0, ?L1, ?L2, ?L3, ?L4;
  unfold tier_of;
  destruct (SFleb f10_9 x);
  [ rewrite (C4 eq_refl), (C3 (C4 eq_refl)), (C2 (C3 (C4 eq_refl))),
            (C1 (C2 (C3 (C4 eq_refl))))
  | destruct (SFleb f7_9 x);
    [ rewrite (C3 eq_refl), (C2 (C3 eq_refl)), (C1 (C2 (C3 eq_refl)))
    | destruct (SFleb f5_9 x);
      [ rewrite (C2 eq_refl), (C1 (C2 eq_refl))
      | destruct (SFleb f2_9 x);
        [ rewrite (C1 eq_refl) | destruct (SFleb f0_0 x) ] ] ] ];
  clear L0 L1 L2 L3 L4 C1 C2 C3 C4; cbn.

(** The label of every float, exactly: an interval label when, and only
    when, the float lies in the interval; [extreme] when, and only when, it
    has reached 10.9, lies below 0.0, or is NaN. *)
Theorem uv_risk_exact (x : spec_float) :
  (uv_intensity_to_exposure_risk (VFloat x) = Ok "low"
   <-> SFleb f0_0 x = true /\ SFltb x f2_9 = true) /\
  (uv_intensity_to_exposure_risk (VFloat x) = Ok "moderate"
   <-> SFleb f2_9 x = true /\ SFltb x f5_9 = true) /\
  (uv_intensity_to_exposure_risk (VFloat x) = Ok "high"
   <-> SFleb f5_9 x = true /\ SFltb x f7_9 = true) /\
  (uv_intensity_to_exposure_risk (VFloat x) = Ok "very high"
   <-> SFleb f7_9 x = true /\ SFltb x f10_9 = true) /\
  (uv_intensity_to_exposure_risk (VFloat x) = Ok "extreme"
   <-> SFleb f10_9 x = true \/ SFltb x f0_0 = true \/ x = S754_nan) /\
  (exists label, In label risk_labels /\
                 uv_intensity_to_exposure_risk (VFloat x) = Ok label).
Proof.
  destruct (match x with S754_nan => true | _ => false end) eqn:Hnan.
  - destruct x; try discriminate Hnan.
    split_ands; try (split; [intros H; discriminate H|intros [H _]; discriminate H]).
    + split; auto.
    + exists "extreme". split; [simpl; tauto|reflexivity].
  - assert (Hx : x <> S754_nan) by (intros ->; discriminate Hnan).
    chain_cases x;
      (split_ands;
       [ intuition congruence | intuition congruence | intuition congruence
       | intuition congruence | intuition congruence
       | eexists; split; [|reflexivity]; simpl; tauto ]).
Qed.

Lemma uv_risk_exact_witness :
  uv_intensity_to_exposure_risk (VFloat S754_nan) = Ok "extreme" /\
  uv_intensity_to_exposure_risk (VFloat (S754_zero true)) = Ok "low".
Proof.
  split.
  - apply (proj1 (proj2 (proj2 (proj2 (proj2 (uv_risk_exact S754_nan)))))).
    right; right; reflexivity.
  - apply (proj1 (uv_risk_exact (S754_zero true))). split; reflexivity.
Defined.

(** [<=] between floats carries a reached literal upwards. *)
Lemma SFleb_trans_lit (x y : spec_float) (m : positive) (e : Z) :
  SFleb (S754_finite false m e) x = true -> SFleb x y = true ->
  SFleb (S754_finite false m e) y = true.
Proof.
  intros Hx Hxy. apply SFleb_at_least. apply SFleb_at_least in Hx.
  destruct x as [sx|sx| |[|] mx ex]; cbn [at_least] in Hx; try contradiction.
  - subst sx. destruct y as [sy|[|]| |sy my ey]; try discriminate Hxy.
    reflexivity.
  - apply SFleb_at_least in Hxy.
    destruct y as [sy|sy| |[|] my ey]; cbn [at_least] in *;
      try contradiction; try assumption.
    lia.
Qed.

Lemma SFleb_trans_zero (x y : spec_float) :
  SFleb f0_0 x = true -> SFleb x y = true -> SFleb f0_0 y = true.
Proof.
  destruct x as [sx|[|]| |[|] mx ex]; try discriminate;
    destruct y as [sy|[|]| |[|] my ey]; try discriminate; reflexivity.
Qed.

Lemma SFleb_not_nan (x y : spec_float) :
  SFleb x y = true -> x <> S754_nan /\ y <> S754_nan.
Proof.
  intros H; split; intros ->; [|destruct x]; discriminate H.
Qed.

(** On a float that has reached 0.0 the label is the one at the place
    [tier_of] counts. *)
Lemma uv_risk_tier (x : spec_float) :
  SFleb f0_0 x = true ->
  uv_intensity_to_exposure_risk (VFloat x)
  = Ok (nth (tier_of x) risk_labels "extreme") /\
  risk_rank (nth (tier_of x) risk_labels "extreme") = tier_of x.
Proof.
  intros H0.
  assert (Hx : x <> S754_nan) by (intros ->; discriminate H0).
  chain_cases x; try discriminate H0; split; reflexivity.
Qed.

Lemma tier_of_monotone (x y : spec_float) :
  SFleb x y = true -> (tier_of x <= tier_of y)%nat.
Proof.
  intros Hxy. unfold tier_of, f2_9, f5_9, f7_9, f10_9.
  repeat match goal with
    | |- context [SFleb (S754_finite false ?m ?e) x] =>
        destruct (SFleb (S754_finite false m e) x) eqn:E;
        [rewrite (SFleb_trans_lit x y m e E Hxy)|]; clear E
    end;
  repeat match goal with
    | |- context [SFleb ?c y] => destruct (SFleb c y)
    end;
  simpl; lia.
Qed.

(** Among floats at or above 0.0 the label grows with the intensity. *)
Theorem uv_risk_monotone (x y : spec_float) (lx ly : string) :
  SFleb f0_0 x = true -> SFleb x y = true ->
  uv_intensity_to_exposure_risk (VFloat x) = Ok lx ->
  uv_intensity_to_exposure_risk (VFloat y) = Ok ly ->
  (risk_rank lx <= risk_rank ly)%nat.
Proof.
  intros H0 Hxy Hlx Hly.
  destruct (uv_risk_tier x H0) as [Ex Rx].
  destruct (uv_risk_tier y (SFleb_trans_zero x y H0 Hxy)) as [Ey Ry].
  assert (Hx : lx = nth (tier_of x) risk_labels "extreme") by congruence.
  assert (Hy : ly = nth (tier_of y) risk_labels "extreme") by congruence.
  rewrite Hx, Hy, Rx, Ry. apply tier_of_monotone, Hxy.
Qed.

Lemma uv_risk_monotone_witness :
  (risk_rank "moderate" <= risk_rank "very high")%nat.
Proof.
  exact (uv_risk_monotone f2_9 f7_9 "moderate" "very high"
           eq_refl eq_refl eq_refl eq_refl).
Defined.

(** Comparisons between an int and a float literal with a negative
    exponent, as integer tests. *)
Lemma int_ltb_lit (n : Z) (m p : positive) :
  num_ltb (NInt n) (NFloat (S754_finite false m (Zneg p)))
  = (n * 2 ^ Zpos p <? Zpos m).
Proof. reflexivity. Qed.

Lemma lit_leb_int (n : Z) (m p : positive) :
  num_leb (NFloat (S754_finite false m (Zneg p))) (NInt n)
  = (Zpos m <=? n * 2 ^ Zpos p).
Proof.
  unfold num_leb, num_compare, Z_SF_compare, option_map, Z.leb.
  rewrite (Z.compare_antisym (n * 2 ^ Zpos p) (Zpos m)).
  destruct (n * 2 ^ Zpos p ?= Zpos m); reflexivity.
Qed.

Lemma zero_leb_int (n : Z) : num_leb (NFloat f0_0) (NInt n) = (0 <=? n).
Proof.
  unfold num_leb, num_compare, Z_SF_compare, option_map, f0_0, Z.leb.
  rewrite (Z.compare_antisym n 0). destruct (n ?= 0); reflexivity.
Qed.

Ltac decide_test :=
  match goal with
  | |- context [?a <? ?b] =>
      first [ replace (a <? b) with true by (symmetry; apply Z.ltb_lt; lia)
            | replace (a <? b) with false by (symmetry; apply Z.ltb_ge; lia) ]
  | |- context [?a <=? ?b] =>
      first [ replace (a <=? b) with true by (symmetry; apply Z.leb_le; lia)
            | replace (a <=? b) with false by (symmetry; apply Z.leb_gt; lia) ]
  end.

(** The label of an int intensity: the comparisons with the float
    thresholds are exact, so 0 to 2 is [low], 3 to 5 [moderate], 6 and 7
    [high], 8 to 10 [very high], and 11 and more, or a negative int,
    [extreme]; a bool counts as 0 or 1. *)
Theorem uv_risk_int (n : Z) (b : bool) :
  uv_intensity_to_exposure_risk (VInt n)
  = Ok (if n <? 0 then "extreme"
        else if n <=? 2 then "low"
        else if n <=? 5 then "moderate"
        else if n <=? 7 then "high"
        else if n <=? 10 then "very high"
        else "extreme") /\
  uv_intensity_to_exposure_risk (VBool b) = Ok "low".
Proof.
  assert (Hint : forall k,
    uv_intensity_to_exposure_risk (VInt k)
    = Ok (if k <? 0 then "extreme"
          else if k <=? 2 then "low"
          else if k <=? 5 then "moderate"
          else if k <=? 7 then "high"
          else if k <=? 10 then "very high"
          else "extreme")).
  { intros k.
    unfold uv_intensity_to_exposure_risk, between, le_lit, lt_lit, bind, as_num,
      f2_9, f5_9, f7_9, f10_9.
    rewrite zero_leb_int, !int_ltb_lit, !lit_leb_int.
    change (2 ^ 51) with 2251799813685248.
    change (2 ^ 50) with 1125899906842624.
    change (2 ^ 49) with 562949953421312.
    destruct (Z.ltb_spec k 0); [repeat decide_test; reflexivity|].
    destruct (Z.leb_spec k 2); [repeat decide_test; reflexivity|].
    destruct (Z.leb_spec k 5); [repeat decide_test; reflexivity|].
    destruct (Z.leb_spec k 7); [repeat decide_test; reflexivity|].
    destruct (Z.leb_spec k 10); repeat decide_test; reflexivity. }
  split; [apply Hint|].
  change (uv_intensity_to_exposure_risk (VBool b))
    with (uv_intensity_to_exposure_risk (VInt (Z.b2z b))).
  rewrite Hint. destruct b; reflexivity.
Qed.

(** Sample int intensities around the thresholds. *)
Lemma uv_risk_int_samples :
  uv_intensity_to_exposure_risk (VInt 2) = Ok "low" /\
  uv_intensity_to_exposure_risk (VInt 3) = Ok "moderate" /\
  uv_intensity_to_exposure_risk (VInt 11) = Ok "extreme" /\
  uv_intensity_to_exposure_risk (VInt (-1)) = Ok "extreme".
Proof. repeat split. Qed.

(** ** Values that are not numbers *)

(** A time or an intensity that is not a number (None, a string, a list, a
    tuple, a dictionary) cannot be compared with 0: the classifier and both
    constructors raise [TypeError], not the invalid-argument error, at the
    first comparison that meets it. *)
Theorem not_a_number_is_type_error (v : pyval) :
  as_num v = None ->
  uv_intensity_to_exposure_risk v = Raise TypeError /\
  (forall loc itv smp rc, SO2Index.__init__ v loc itv smp rc = Raise TypeError) /\
  (forall loc val rc, UVIndex.__init__ v loc val rc = Raise TypeError) /\
  (forall a loc rc, 0 <= a ->
                    UVIndex.__init__ (VInt a) loc v rc = Raise TypeError) /\
  (forall a loc itv l, 0 <= a ->
                       SO2Index.__init__ (VInt a) loc itv (VList l) v
                       = Raise TypeError) /\
  (forall a loc x, 0 <= a -> SFltb x f0_0 = false ->
                   UVIndex.__init__ (VInt a) loc (VFloat x) v = Raise TypeError).
Proof.
  intros Hv.
  assert (Hlt : forall c, lt_lit v c = Raise TypeError)
    by (intros c; unfold lt_lit; rewrite Hv; reflexivity).
  assert (Hnn : forall a, 0 <= a -> lt_lit (VInt a) (NInt 0) = Ok false)
    by (intros a Ha; rewrite lt_lit_int; destruct (Z.ltb_spec a 0);
        [lia|reflexivity]).
  split_ands.
  - unfold uv_intensity_to_exposure_risk, between, le_lit, bind.
    rewrite Hv. reflexivity.
  - intros. unfold SO2Index.__init__, bind. rewrite Hlt. reflexivity.
  - intros. unfold UVIndex.__init__, bind. rewrite Hlt. reflexivity.
  - intros a loc rc Ha. unfold UVIndex.__init__, bind.
    rewrite (Hnn a Ha), Hlt. reflexivity.
  - intros a loc itv l Ha. unfold SO2Index.__init__, bind.
    rewrite (Hnn a Ha), Hlt. reflexivity.
  - intros a loc x Ha Hx. unfold UVIndex.__init__, bind.
    rewrite (Hnn a Ha), lt_lit_float, Hx, Hlt. reflexivity.
Qed.

Lemma not_a_number_is_type_error_witness :
  uv_intensity_to_exposure_risk (VStr "3.5") = Raise TypeError /\
  UVIndex.__init__ (VInt 1) sample_location VNone (VInt 2) = Raise TypeError.
Proof.
  split.
  - exact (proj1 (not_a_number_is_type_error (VStr "3.5") eq_refl)).
  - refine (proj1 (proj2 (proj2 (proj2
             (not_a_number_is_type_error VNone eq_refl)))) 1 sample_location
             (VInt 2) _). lia.
Defined.

(** ** The exposure risk of a record *)

(** The constructor's check on the value closes the way from a negative
    intensity to [extreme]: on a record that was built with a float value
    the risk is [extreme] only for a value that has reached 10.9 or is NaN.
    NaN is not below 0.0, so the constructor accepts it. *)
Theorem exposure_risk_of_built (rt rc : pyval) (loc : Location)
        (v : spec_float) (r : UVIndex.t) :
  UVIndex.__init__ rt loc (VFloat v) rc = Ok r ->
  (UVIndex.get_exposure_risk r = Ok "extreme"
   <-> SFleb f10_9 v = true \/ v = S754_nan) /\
  (forall a b, 0 <= a -> 0 <= b ->
     UVIndex.__init__ (VInt a) loc (VFloat S754_nan) (VInt b)
     = Ok (UVIndex.mk (VInt a) loc (VFloat S754_nan) (VInt b))).
Proof.
  intros Hr. split.
  - apply uv_init_ok in Hr. destruct Hr as (-> & _ & Hv & _).
    rewrite lt_lit_float in Hv. injection Hv as Hv.
    unfold UVIndex.get_exposure_risk. simpl UVIndex._value.
    destruct (match v with S754_nan => true | _ => false end) eqn:Hnan.
    + destruct v; try discriminate Hnan. split; auto.
    + assert (Hx : v <> S754_nan) by (intros ->; discriminate Hnan).
      rewrite (proj1 (risk_tests v Hx)) in Hv.
      chain_cases v; try discriminate Hv; intuition congruence.
  - intros a b Ha Hb. apply uv_init_valid; [|reflexivity|assumption].
    rewrite lt_lit_int. destruct (Z.ltb_spec a 0); [lia|reflexivity].
Qed.

Lemma exposure_risk_of_built_witness :
  UVIndex.get_exposure_risk
    (UVIndex.mk (VInt 1) sample_location (VFloat f10_9) (VInt 2)) = Ok "extreme".
Proof.
  apply (proj1 (exposure_risk_of_built (VInt 1) (VInt 2) sample_location f10_9
                  _ eq_refl)).
  left; reflexivity.
Defined.

(** ** More on the parsers *)

Section ParsersMore.
Variable timeformat : pyval -> string -> result pyval.
Hypothesis timeformat_unix :
  forall z, 0 <= z -> timeformat (VInt z) "unix" = Ok (VInt z).
Variable ISO8601_to_UNIXtime : string -> result Z.
Variable Location_to_dict : Location -> pyval.

(** The parsers are not inverse to [to_dict]: what [to_dict] writes has
    neither a [time] nor a [date] key, so parsing it back is malformed-data
    with that [KeyError], for every record. *)
Theorem from_dict_of_to_dict (now : Z) :
  (forall r : SO2Index.t,
      SO2Index.from_dict ISO8601_to_UNIXtime now
                         (SO2Index.to_dict Location_to_dict r)
      = Raise (ParseResponseError
                 "pyowm.pollutionapi30.so2index: impossible to parse COIndex"
                 (Some (KeyError "time")))) /\
  (forall r : UVIndex.t,
      UVIndex.from_dict now (UVIndex.to_dict Location_to_dict r)
      = Raise (ParseResponseError
                 "pyowm.uvindexapi30.uvindex: impossible to parse UV Index"
                 (Some (KeyError "date")))).
Proof. split; intros r; reflexivity. Qed.

(** A payload that is neither [None] nor a dictionary cannot be subscripted
    with a key: both parsers raise [TypeError], which the handler for
    [KeyError] lets through. *)
Theorem from_dict_not_a_dict (now : Z) (v : pyval) :
  v <> VNone -> (forall d, v <> VDict d) ->
  SO2Index.from_dict ISO8601_to_UNIXtime now v = Raise TypeError /\
  UVIndex.from_dict now v = Raise TypeError.
Proof.
  intros Hnone Hdict.
  destruct v; try (split; reflexivity); [congruence|].
  exfalso. eapply Hdict. reflexivity.
Qed.

(** What the parsers hand to the constructors, once every field is read. *)
Lemma so2_from_dict_parsed (now t : Z) (d locd : list (string * pyval))
      (s : string) (lon_v lat_v dv : pyval) (lon lat : spec_float) :
  assoc "time" d = Some (VStr s) ->
  ISO8601_to_UNIXtime (iso_rewrite s) = Ok t ->
  assoc "location" d = Some (VDict locd) ->
  assoc "longitude" locd = Some lon_v -> float lon_v = Ok lon ->
  assoc "latitude" locd = Some lat_v -> float lat_v = Ok lat ->
  assoc "data" d = Some dv ->
  SO2Index.from_dict ISO8601_to_UNIXtime now (VDict d)
  = SO2Index.__init__ (VInt t) (mkLocation None lon lat None) VNone dv (VInt now).
Proof.
  intros Htime Hiso Hloc Hlon Hflon Hlat Hflat Hdata.
  unfold SO2Index.from_dict, except_KeyError, bind, getitem, replace.
  unfold iso_rewrite in Hiso.
  rewrite Htime, Hiso, Hloc, Hlon, Hflon, Hlat, Hflat, Hdata. reflexivity.
Qed.

Lemma uv_from_dict_parsed (now : Z) (d : list (string * pyval))
      (date lon_v lat_v val_v : pyval) (lon lat val : spec_float) :
  assoc "date" d = Some date ->
  assoc "lon" d = Some lon_v -> float lon_v = Ok lon ->
  assoc "lat" d = Some lat_v -> float lat_v = Ok lat ->
  assoc "value" d = Some val_v -> float val_v = Ok val ->
  UVIndex.from_dict now (VDict d)
  = UVIndex.__init__ date (mkLocation None lon lat None) (VFloat val) (VInt now).
Proof.
  intros Hdate Hlon Hflon Hlat Hflat Hval Hfval.
  unfold UVIndex.from_dict, except_KeyError, bind, getitem.
  rewrite Hdate, Hlon, Hflon, Hlat, Hflat, Hval, Hfval. reflexivity.
Qed.

(** [SO2Index.from_dict] returns a record only for a dictionary whose
    [time] is a string that the ISO parser accepts with a result that is not
    negative, whose [location] is a dictionary with both coordinates
    convertible to float, whose [data] is a list, and with a clock that is
    not negative; the record holds exactly these. *)
Theorem so2_from_dict_only_if (now : Z) (the_dict : pyval) (r : SO2Index.t) :
  SO2Index.from_dict ISO8601_to_UNIXtime now the_dict = Ok r ->
  exists d s t locd lon_v lat_v lon lat samples,
    the_dict = VDict d /\
    assoc "time" d = Some (VStr s) /\
    ISO8601_to_UNIXtime (iso_rewrite s) = Ok t /\ 0 <= t /\
    assoc "location" d = Some (VDict locd) /\
    assoc "longitude" locd = Some lon_v /\ float lon_v = Ok lon /\
    assoc "latitude" locd = Some lat_v /\ float lat_v = Ok lat /\
    assoc "data" d = Some (VList samples) /\ 0 <= now /\
    r = SO2Index.mk (VInt t) (mkLocation None lon lat None) VNone
                    (VList samples) (VInt now).
Proof.
  intros H.
  destruct the_dict as [| | | | | | |d]; try discriminate H.
  unfold SO2Index.from_dict, except_KeyError, bind, getitem, replace in H.
  destruct (assoc "time" d) as [[| | | |s| | |]|] eqn:Htime; try discriminate H.
  destruct (ISO8601_to_UNIXtime (str_replace "T" " " (str_replace "Z" "+00" s)))
    as [t|[]] eqn:Hiso; try discriminate H.
  destruct (assoc "location" d) as [[| | | | | | |locd]|] eqn:Hloc;
    try discriminate H.
  destruct (assoc "longitude" locd) as [lon_v|] eqn:Hlon; try discriminate H.
  destruct (float lon_v) as [lon|[]] eqn:Hflon; try discriminate H.
  destruct (assoc "latitude" locd) as [lat_v|] eqn:Hlat; try discriminate H.
  destruct (float lat_v) as [lat|[]] eqn:Hflat; try discriminate H.
  destruct (assoc "data" d) as [dv|] eqn:Hdata; try discriminate H.
  apply so2_init_ok in H. destruct H as (-> & Ht & Hlist & Hnow).
  rewrite lt_lit_int in Ht, Hnow.
  destruct dv as [| | | | |samples| |]; try discriminate Hlist.
  exists d, s, t, locd, lon_v, lat_v, lon, lat, samples.
  split_ands; try reflexivity; try assumption.
  - destruct (Z.ltb_spec t 0); [discriminate|lia].
  - destruct (Z.ltb_spec now 0); [discriminate|lia].
Qed.

(** [UVIndex.from_dict] returns a record only for a dictionary with a
    [date] that is a number not below 0, with [lon], [lat] and [value]
    convertible to float, a value that is not below 0.0, and a clock that
    is not negative; the record holds exactly these. *)
Theorem uv_from_dict_only_if (now : Z) (the_dict : pyval) (r : UVIndex.t) :
  UVIndex.from_dict now the_dict = Ok r ->
  exists d date lon_v lat_v val_v lon lat val,
    the_dict = VDict d /\
    assoc "date" d = Some date /\ lt_lit date (NInt 0) = Ok false /\
    assoc "lon" d = Some lon_v /\ float lon_v = Ok lon /\
    assoc "lat" d = Some lat_v /\ float lat_v = Ok lat /\
    assoc "value" d = Some val_v /\ float val_v = Ok val /\
    SFltb val f0_0 = false /\ 0 <= now /\
    r = UVIndex.mk date (mkLocation None lon lat None) (VFloat val) (VInt now).
Proof.
  intros H.
  destruct the_dict as [| | | | | | |d]; try discriminate H.
  unfold UVIndex.from_dict, except_KeyError, bind, getitem in H.
  destruct (assoc "date" d) as [date|] eqn:Hdate; try discriminate H.
  destruct (assoc "lon" d) as [lon_v|] eqn:Hlon; try discriminate H.
  destruct (float lon_v) as [lon|[]] eqn:Hflon; try discriminate H.
  destruct (assoc "lat" d) as [lat_v|] eqn:Hlat; try discriminate H.
  destruct (float lat_v) as [lat|[]] eqn:Hflat; try discriminate H.
  destruct (assoc "value" d) as [val_v|] eqn:Hval; try discriminate H.
  destruct (float val_v) as [val|[]] eqn:Hfval; try discriminate H.
  apply uv_init_ok in H. destruct H as (-> & Hd & Hv & Hnow).
  rewrite lt_lit_float in Hv. injection Hv as Hv. rewrite lt_lit_int in Hnow.
  exists d, date, lon_v, lat_v, val_v, lon, lat, val.
  split_ands; try reflexivity; try assumption.
  destruct (Z.ltb_spec now 0); [discriminate|lia].
Qed.
End ParsersMore.

Lemma from_dict_not_a_dict_witness :
  SO2Index.from_dict RefTime.ISO8601_to_UNIXtime 0 (VList []) = Raise TypeError /\
  UVIndex.from_dict 0 (VList []) = Raise TypeError.
Proof.
  apply (from_dict_not_a_dict RefTime.ISO8601_to_UNIXtime 0 (VList []));
    [discriminate|intros d; discriminate].
Defined.

Lemma so2_from_dict_only_if_witness :
  exists d s t locd lon_v lat_v lon lat samples,
    sample_so2_payload = VDict d /\
    assoc "time" d = Some (VStr s) /\
    RefTime.ISO8601_to_UNIXtime (iso_rewrite s) = Ok t /\ 0 <= t /\
    assoc "location" d = Some (VDict locd) /\
    assoc "longitude" locd = Some lon_v /\ float lon_v = Ok lon /\
    assoc "latitude" locd = Some lat_v /\ float lat_v = Ok lat /\
    assoc "data" d = Some (VList samples) /\ 0 <= 1700000000 /\
    SO2Index.mk (VInt 1577836800) sample_location VNone
                (VList [VDict [("a", VInt 1)]]) (VInt 1700000000)
    = SO2Index.mk (VInt t) (mkLocation None lon lat None) VNone
                  (VList samples) (VInt 1700000000).
Proof.
  exact (so2_from_dict_only_if RefTime.ISO8601_to_UNIXtime 1700000000
           sample_so2_payload _ eq_refl).
Defined.

Lemma uv_from_dict_only_if_witness :
  exists d date lon_v lat_v val_v lon lat val,
    sample_uv_payload = VDict d /\
    assoc "date" d = Some date /\ lt_lit date (NInt 0) = Ok false /\
    assoc "lon" d = Some lon_v /\ float lon_v = Ok lon /\
    assoc "lat" d = Some lat_v /\ float lat_v = Ok lat /\
    assoc "value" d = Some val_v /\ float val_v = Ok val /\
    SFltb val f0_0 = false /\ 0 <= 1700000000 /\
    UVIndex.mk (VInt 1577836800)
               (mkLocation None (S754_finite false 6755399441055744 (-49))
                           (S754_finite false 5840605766746112 (-47)) None)
               (VFloat f5_9) (VInt 1700000000)
    = UVIndex.mk date (mkLocation None lon lat None) (VFloat val) (VInt 1700000000).
Proof.
  exact (uv_from_dict_only_if 1700000000 sample_uv_payload _ eq_refl).
Defined.

(** ** Errors of the constructors, met through the parsers *)

Section ParsersInvalid.
Variable timeformat : pyval -> string -> result pyval.
Hypothesis timeformat_unix :
  forall z, 0 <= z -> timeformat (VInt z) "unix" = Ok (VInt z).
Variable ISO8601_to_UNIXtime : string -> result Z.

(** The constructor is called after the handler for [KeyError] has ended,
    so its errors leave [SO2Index.from_dict] as they are: a time before
    1970, a [data] entry that is not a list, or a negative clock is an
    invalid-argument error and not malformed-data. *)
Theorem so2_from_dict_invalid (now t : Z) (d locd : list (string * pyval))
        (s : string) (lon_v lat_v dv : pyval) (lon lat : spec_float) :
  assoc "time" d = Some (VStr s) ->
  ISO8601_to_UNIXtime (iso_rewrite s) = Ok t ->
  assoc "location" d = Some (VDict locd) ->
  assoc "longitude" locd = Some lon_v -> float lon_v = Ok lon ->
  assoc "latitude" locd = Some lat_v -> float lat_v = Ok lat ->
  assoc "data" d = Some dv ->
  (t < 0 ->
   SO2Index.from_dict ISO8601_to_UNIXtime now (VDict d)
   = Raise (ValueError "'reference_time' must be greater than 0")) /\
  (0 <= t -> isinstance_list dv = false ->
   SO2Index.from_dict ISO8601_to_UNIXtime now (VDict d)
   = Raise (ValueError "'so2_samples' must be a list")) /\
  (0 <= t -> isinstance_list dv = true -> now < 0 ->
   SO2Index.from_dict ISO8601_to_UNIXtime now (VDict d)
   = Raise (ValueError "'reception_time' must be greater than 0")).
Proof.
  intros Htime Hiso Hloc Hlon Hflon Hlat Hflat Hdata.
  rewrite (so2_from_dict_parsed ISO8601_to_UNIXtime now t d locd s lon_v lat_v dv
             lon lat Htime Hiso Hloc Hlon Hflon Hlat Hflat Hdata).
  unfold SO2Index.__init__, bind. rewrite !lt_lit_int.
  split_ands.
  - intros Ht. destruct (Z.ltb_spec t 0); [reflexivity|lia].
  - intros Ht Hl. destruct (Z.ltb_spec t 0); [lia|]. rewrite Hl. reflexivity.
  - intros Ht Hl Hn. destruct (Z.ltb_spec t 0); [lia|]. rewrite Hl. simpl.
    destruct (Z.ltb_spec now 0); [reflexivity|lia].
Qed.

(** The same for [UVIndex.from_dict]: a negative [date], a [date] that is
    not a number, a negative value or a negative clock is reported by the
    constructor. *)
Theorem uv_from_dict_invalid (now : Z) (d : list (string * pyval))
        (date lon_v lat_v val_v : pyval) (lon lat val : spec_float) :
  assoc "date" d = Some date ->
  assoc "lon" d = Some lon_v -> float lon_v = Ok lon ->
  assoc "lat" d = Some lat_v -> float lat_v = Ok lat ->
  assoc "value" d = Some val_v -> float val_v = Ok val ->
  (lt_lit date (NInt 0) = Ok true ->
   UVIndex.from_dict now (VDict d)
   = Raise (ValueError "'referencetime' must be greater than 0")) /\
  (as_num date = None -> UVIndex.from_dict now (VDict d) = Raise TypeError) /\
  (lt_lit date (NInt 0) = Ok false -> SFltb val f0_0 = true ->
   UVIndex.from_dict now (VDict d)
   = Raise (ValueError "'UV intensity must be greater than 0")) /\
  (lt_lit date (NInt 0) = Ok false -> SFltb val f0_0 = false -> now < 0 ->
   UVIndex.from_dict now (VDict d)
   = Raise (ValueError "'reception_time' must be greater than 0")).
Proof.
  intros Hdate Hlon Hflon Hlat Hflat Hval Hfval.
  rewrite (uv_from_dict_parsed now d date lon_v lat_v val_v lon lat val
             Hdate Hlon Hflon Hlat Hflat Hval Hfval).
  unfold UVIndex.__init__, bind. rewrite lt_lit_float, lt_lit_int.
  split_ands.
  - intros ->. reflexivity.
  - intros Hn. unfold lt_lit. rewrite Hn. reflexivity.
  - intros -> ->. reflexivity.
  - intros -> -> Hn. destruct (Z.ltb_spec now 0); [reflexivity|lia].
Qed.

(** A record parsed from a payload is a forecast, at any later reading of
    the clock, exactly while that reading is below the parsed time. *)
Theorem parsed_is_forecast (now t : Z) (d locd : list (string * pyval))
        (s : string) (lon_v lat_v : pyval) (lon lat : spec_float)
        (samples : list pyval) :
  assoc "time" d = Some (VStr s) ->
  ISO8601_to_UNIXtime (iso_rewrite s) = Ok t ->
  assoc "location" d = Some (VDict locd) ->
  assoc "longitude" locd = Some lon_v -> float lon_v = Ok lon ->
  assoc "latitude" locd = Some lat_v -> float lat_v = Ok lat ->
  assoc "data" d = Some (VList samples) ->
  0 <= t -> 0 <= now ->
  exists r,
    SO2Index.from_dict ISO8601_to_UNIXtime now (VDict d) = Ok r /\
    forall later, SO2Index.is_forecast timeformat later r = Ok (later <? t).
Proof.
  intros Htime Hiso Hloc Hlon Hflon Hlat Hflat Hdata Ht Hnow.
  eexists. split.
  - rewrite (so2_from_dict_parsed ISO8601_to_UNIXtime now t d locd s lon_v lat_v
               (VList samples) lon lat Htime Hiso Hloc Hlon Hflon Hlat Hflat Hdata).
    apply so2_init_valid; assumption.
  - intros later.
    unfold SO2Index.is_forecast, SO2Index.get_reference_time, bind. simpl.
    rewrite timeformat_unix by assumption. reflexivity.
Qed.
End ParsersInvalid.

Lemma so2_from_dict_invalid_witness :
  SO2Index.from_dict RefTime.ISO8601_to_UNIXtime 1700000000 so2_payload_data_dict
  = Raise (ValueError "'so2_samples' must be a list").
Proof.
  unfold so2_payload_data_dict.
  refine (proj1 (proj2 (so2_from_dict_invalid RefTime.ISO8601_to_UNIXtime
                          1700000000 1577836800
                          [("time", VStr "2020-01-01T00:00:00Z");
                           ("location", VDict [("longitude", VStr "1.0");
                                               ("latitude", VStr "2.0")]);
                           ("data", VDict [("a", VInt 1)])]
                          [("longitude", VStr "1.0"); ("latitude", VStr "2.0")]
                          "2020-01-01T00:00:00Z" (VStr "1.0") (VStr "2.0")
                          (VDict [("a", VInt 1)]) _ _ _ _ _ _ _ _ _ _)) _ _);
    try reflexivity; lia.
Defined.

Lemma uv_from_dict_invalid_witness :
  UVIndex.from_dict 1700000000 uv_payload_date_string = Raise TypeError.
Proof.
  unfold uv_payload_date_string.
  refine (proj1 (proj2 (uv_from_dict_invalid 1700000000
                          [("date", VStr "1577836800"); ("lon", VInt 12);
                           ("lat", VStr "41.5"); ("value", VFloat f5_9)]
                          (VStr "1577836800") (VInt 12) (VStr "41.5") (VFloat f5_9)
                          _ _ _ _ _ _ _ _ _ _)) _);
    reflexivity.
Defined.

Lemma parsed_is_forecast_witness :
  exists r,
    SO2Index.from_dict RefTime.ISO8601_to_UNIXtime 1500000000 sample_so2_payload
    = Ok r /\
    forall later,
      SO2Index.is_forecast RefTime.timeformat later r = Ok (later <? 1577836800).
Proof.
  unfold sample_so2_payload.
  eapply (parsed_is_forecast RefTime.timeformat RefTime_timeformat_unix
           RefTime.ISO8601_to_UNIXtime 1500000000 1577836800)
    with (s := "2020-01-01T00:00:00Z") (lon_v := VStr "1.0") (lat_v := VStr "2.0")
         (locd := [("longitude", VStr "1.0"); ("latitude", VStr "2.0")]);
    try reflexivity; lia.
Defined.

(** ** The rewriting of the time string *)

Lemma chars_app (s1 s2 : string) :
  chars (s1 ++ s2) = (chars s1 ++ chars s2)%list.
Proof.
  unfold chars. induction s1 as [|c s1 IH]; simpl; [reflexivity|].
  rewrite IH. reflexivity.
Qed.

(** After a replacement a character comes from the new text, or is an old
    one other than the replaced character. *)
Lemma subst_char_chars (c : ascii) (new s : string) (a : ascii) :
  In a (chars (subst_char c new s)) ->
  In a (chars new) \/ (a <> c /\ In a (chars s)).
Proof.
  induction s as [|c' s IH]; simpl; [intros []|].
  destruct (Ascii.eqb_spec c c') as [<-|Hne].
  - rewrite chars_app, in_app_iff. intros [H|H]; [left; exact H|].
    destruct (IH H) as [H'|[H1 H2]]; [left; exact H'|right].
    split; [exact H1|right; exact H2].
  - intros [<-|H].
    + right. split; [congruence|left; reflexivity].
    + destruct (IH H) as [H'|[H1 H2]]; [left; exact H'|right].
      split; [exact H1|right; exact H2].
Qed.

Lemma subst_char_absent (c : ascii) (new s : string) :
  ~ In c (chars s) -> subst_char c new s = s.
Proof.
  induction s as [|c' s IH]; simpl; [reflexivity|]. intros Hn.
  destruct (Ascii.eqb_spec c c') as [->|Hne]; [exfalso; apply Hn; left; reflexivity|].
  rewrite IH; [reflexivity|]. intros H. apply Hn. right. exact H.
Qed.

Lemma iso_rewrite_subst (s : string) :
  iso_rewrite s = subst_char "T" " " (subst_char "Z" "+00" s).
Proof. unfold iso_rewrite. rewrite !str_replace_char. reflexivity. Qed.

Lemma iso_rewrite_chars (s : string) (a : ascii) :
  In a (chars (iso_rewrite s)) -> a <> "Z"%char /\ a <> "T"%char.
Proof.
  rewrite iso_rewrite_subst. intros H.
  apply subst_char_chars in H. destruct H as [H|[HT H]].
  - simpl in H. destruct H as [<-|[]]. split; discriminate.
  - apply subst_char_chars in H. destruct H as [H|[HZ _]].
    + simpl in H. destruct H as [<-|[<-|[<-|[]]]]; split; discriminate.
    + split; assumption.
Qed.

Section Rewriting.
Variable ISO8601_to_UNIXtime : string -> result Z.

(** Both parsers look a payload up at their own keys only. *)
Lemma so2_from_dict_agree (now : Z) (d d' : list (string * pyval)) :
  assoc "time" d' = assoc "time" d ->
  assoc "location" d' = assoc "location" d ->
  assoc "data" d' = assoc "data" d ->
  SO2Index.from_dict ISO8601_to_UNIXtime now (VDict d')
  = SO2Index.from_dict ISO8601_to_UNIXtime now (VDict d).
Proof.
  intros Ht Hl Hd. unfold SO2Index.from_dict, getitem.
  rewrite Ht, Hl, Hd. reflexivity.
Qed.

Lemma uv_from_dict_agree (now : Z) (d d' : list (string * pyval)) :
  assoc "date" d' = assoc "date" d -> assoc "lon" d' = assoc "lon" d ->
  assoc "lat" d' = assoc "lat" d -> assoc "value" d' = assoc "value" d ->
  UVIndex.from_dict now (VDict d') = UVIndex.from_dict now (VDict d).
Proof.
  intros Hd Hlo Hla Hv. unfold UVIndex.from_dict, getitem.
  rewrite Hd, Hlo, Hla, Hv. reflexivity.
Qed.

(** The string handed to the ISO parser holds no [Z] and no [T], so the
    rewriting changes nothing when applied again, and a payload whose time
    is already rewritten parses to the same outcome as the original. *)
Theorem iso_rewrite_idempotent (s : string) :
  ~ In "Z"%char (chars (iso_rewrite s)) /\
  ~ In "T"%char (chars (iso_rewrite s)) /\
  iso_rewrite (iso_rewrite s) = iso_rewrite s /\
  (forall now d d',
      assoc "time" d = Some (VStr s) ->
      assoc "time" d' = Some (VStr (iso_rewrite s)) ->
      assoc "location" d' = assoc "location" d ->
      assoc "data" d' = assoc "data" d ->
      SO2Index.from_dict ISO8601_to_UNIXtime now (VDict d')
      = SO2Index.from_dict ISO8601_to_UNIXtime now (VDict d)).
Proof.
  assert (HZ : ~ In "Z"%char (chars (iso_rewrite s)))
    by (intros H; apply iso_rewrite_chars in H; destruct H as [H _]; congruence).
  assert (HT : ~ In "T"%char (chars (iso_rewrite s)))
    by (intros H; apply iso_rewrite_chars in H; destruct H as [_ H]; congruence).
  assert (Hid : iso_rewrite (iso_rewrite s) = iso_rewrite s).
  { rewrite (iso_rewrite_subst (iso_rewrite s)).
    rewrite (subst_char_absent "Z" "+00" _ HZ).
    apply subst_char_absent, HT. }
  split_ands; try assumption.
  intros now d d' Ht Ht' Hl Hd.
  unfold SO2Index.from_dict, getitem, replace, bind, except_KeyError.
  rewrite Ht, Ht', Hl, Hd. cbv beta iota.
  change (str_replace "T" " " (str_replace "Z" "+00" (iso_rewrite s)))
    with (iso_rewrite (iso_rewrite s)).
  rewrite Hid. reflexivity.
Qed.

(** An entry under a key that the parsers do not read changes nothing,
    wherever it stands in the payload. *)
Theorem from_dict_ignores_other_keys (now : Z) (k : string) (v : pyval)
        (d1 d2 : list (string * pyval)) :
  (~ In k ["time"; "location"; "data"] ->
   SO2Index.from_dict ISO8601_to_UNIXtime now (VDict (d1 ++ (k, v) :: d2))
   = SO2Index.from_dict ISO8601_to_UNIXtime now (VDict (d1 ++ d2))) /\
  (~ In k ["date"; "lon"; "lat"; "value"] ->
   UVIndex.from_dict now (VDict (d1 ++ (k, v) :: d2))
   = UVIndex.from_dict now (VDict (d1 ++ d2))).
Proof.
  assert (Hskip : forall k', k' <> k ->
            assoc k' (d1 ++ (k, v) :: d2) = assoc k' (d1 ++ d2)).
  { intros k' Hne. induction d1 as [|[k1 v1] d1 IH]; simpl.
    - destruct (String.eqb_spec k' k); [congruence|reflexivity].
    - rewrite IH. reflexivity. }
  split; intros Hk.
  - apply so2_from_dict_agree; apply Hskip; intros <-; apply Hk; simpl; tauto.
  - apply uv_from_dict_agree; apply Hskip; intros <-; apply Hk; simpl; tauto.
Qed.
End Rewriting.

Lemma from_dict_ignores_other_keys_witness :
  SO2Index.from_dict RefTime.ISO8601_to_UNIXtime 1700000000
                     so2_payload_with_interval
  = SO2Index.from_dict RefTime.ISO8601_to_UNIXtime 1700000000 sample_so2_payload.
Proof.
  refine (proj1 (from_dict_ignores_other_keys RefTime.ISO8601_to_UNIXtime
                   1700000000 "interval" (VStr "hour")
                   [("time", VStr "2020-01-01T00:00:00Z")]
                   [("location", VDict [("longitude", VStr "1.0");
                                        ("latitude", VStr "2.0")]);
                    ("data", VList [VDict [("a", VInt 1)]])]) _).
  simpl. intros [H|[H|[H|[]]]]; discriminate H.
Defined.
